(** * Vacation packages: type-switch dispatch versus visitor dispatch

    A shallow embedding of the two TypeScript programs of the repository.
    Both build a [VacationPackage] out of four unrelated product classes
    ([Flight], [Hotel], [Car], [Activity]) and derive a total price and an
    itinerary text from it.  The first program (module [TypeSwitch]) dispatches
    with an [instanceof] chain in free functions, the second (module
    [Visitor], file visitor.ts) with double dispatch through a
    [ProductVisitor].

    TypeScript's [number] is an IEEE 754 binary64 value: it is modelled by
    Rocq's primitive [float], whose operations are the same binary64
    operations with round-to-nearest-even. *)

From Stdlib Require Import ZArith Uint63 Floats List String Ascii Bool.
From Stdlib Require Import Permutation Lia.
Import ListNotations.

Set Implicit Arguments.

(** ** The JavaScript runtime the programs rely on *)

Module JS.

(** [number]: a binary64 float. *)
Definition number : Set := float.

Bind Scope float_scope with number.

(** The strict equality [===] on numbers: IEEE equality, under which
    [NaN] differs from itself and the two zeros are equal. *)
Definition strictEquals (x y : number) : bool := (x =? y)%float.

(** [SameValueZero] of ECMAScript (the comparison of [Array.prototype.includes]
    and of [Map] keys): [===], except that [NaN] is the same value as [NaN]. *)
Definition sameValueZero (x y : number) : bool :=
  strictEquals x y || (is_nan x && is_nan y).

(** The Number that an integer denotes (rounded when it has more than 53
    significant bits; the conversion is meant for magnitudes below [2^63]). *)
Definition Z2number (z : Z) : number :=
  if (z <? 0)%Z then (- of_uint63 (Uint63.of_Z (- z)))%float
  else of_uint63 (Uint63.of_Z z).

(** String concatenation, written as JavaScript's left-associative [+]. *)
Infix "+s" := String.append (at level 50, left associativity).

(** The escape [\n] of the string literals. *)
Definition LF : string := String (ascii_of_nat 10) EmptyString.

(** What a call can do: return a value, return nothing ([undefined], the
    result of falling off the end of a function body), or throw. *)
Inductive Completion (A : Type) : Type :=
| Return (value : A)
| ReturnUndefined
| Throw (message : string).

Arguments ReturnUndefined {A}.
Arguments Throw {A} message.

(** A [Date] object holds a time value, the number that [getTime] returns:
    milliseconds since the epoch, or [NaN] for an Invalid Date. *)
Record Date : Set := mkDate { getTime : number }.

(** A date that denotes a point in time (not an Invalid Date). *)
Definition validDate (d : Date) : bool := is_finite (getTime d).

(** ECMAScript's [DayFromYear], [InLeapYear] and the day number of a
    calendar date (month 1 to 12, day of month from 1). *)
Definition DayFromYear (y : Z) : Z :=
  (365 * (y - 1970) + (y - 1969) / 4 - (y - 1901) / 100 + (y - 1601) / 400)%Z.

Definition InLeapYear (y : Z) : bool :=
  ((y mod 4 =? 0) && (negb (y mod 100 =? 0) || (y mod 400 =? 0)))%Z.

Definition daysBeforeMonth (y m : Z) : Z :=
  (nth (Z.to_nat (m - 1)) [0; 31; 59; 90; 120; 151; 181; 212; 243; 273; 304; 334] 0
   + (if (2 <? m) && InLeapYear y then 1 else 0))%Z.

Definition MakeDay (y m d : Z) : Z :=
  (DayFromYear y + daysBeforeMonth y m + (d - 1))%Z.

Definition msPerDay : Z := 86400000.

(** [new Date('YYYY-MM-DD')]: a date-only ISO string denotes midnight UTC
    of that day. *)
Definition Date_ofISODate (y m d : Z) : Date :=
  mkDate (Z2number (MakeDay y m d * msPerDay)).

(** The options object of [toLocaleDateString]; every field the programs
    set holds the string ['numeric']. *)
Record DateTimeFormatOptions : Set := mkOptions {
  year : string; month : string; day : string; hour : string; minute : string }.

(** The parts of the runtime whose result depends on the host (its locale
    and time zone) or that are too large to embed: the conversion of a
    number to a string inside a template literal, and
    [Date.prototype.toLocaleDateString] with and without arguments. *)
Class Host : Type := {
  Number_toString : number -> string;
  toLocaleDateString : option (string * DateTimeFormatOptions) -> Date -> string }.

(** [Array.prototype.reduce] with an initial value, [forEach] with a
    callback that updates the state it closes over, and [push]. *)
Definition reduce {A B : Type} (callback : B -> A -> B) (initial : B) (arr : list A) : B :=
  fold_left callback arr initial.

Fixpoint forEach {A S : Type} (callback : A -> S -> S) (arr : list A) (s : S) : S :=
  match arr with
  | [] => s
  | x :: rest => forEach callback rest (callback x s)
  end.

Definition push {A : Type} (arr : list A) (x : A) : list A := arr ++ [x].

End JS.

Import JS.

(** Methods of an object are state transformers on [this]. *)
Module Method.

Definition t (S A : Type) : Type := S -> A * S.

Definition ret {S A : Type} (a : A) : t S A := fun this => (a, this).

Definition bind {S A B : Type} (m : t S A) (k : A -> t S B) : t S B :=
  fun this => let (a, this') := m this in k a this'.

Definition get {S : Type} : t S S := fun this => (this, this).

Definition put {S : Type} (s : S) : t S unit := fun _ => (tt, s).

Definition result {S A : Type} (m : t S A) (this : S) : A := fst (m this).

Definition after {S A : Type} (m : t S A) (this : S) : S := snd (m this).

End Method.

Notation "x <- m ;; k" := (Method.bind m (fun x => k))
  (at level 61, m at next level, right associativity).
Notation "m ;; k" := (Method.bind m (fun _ => k))
  (at level 61, right associativity).

(** ** The four product classes

    Constructor parameter properties only: each class is a record of its
    public fields.  The classes are the same in both programs, apart from
    the [accept] method that visitor.ts adds (module [Visitor] below). *)

Module Flight.
Record t : Set := make {
  flightNumber : string; origin : string; destination : string;
  departureTime : Date; price : number }.
End Flight.

Module Hotel.
Record t : Set := make {
  id : string; checkInDate : Date; checkOutDate : Date; roomRate : number }.
End Hotel.

Module Car.
Record t : Set := make {
  vehicleType : string; pickupDate : Date; dropOffDate : Date; dailyRate : number }.
End Car.

Module Activity.
Record t : Set := make { id : string; startTime : Date; cost : number }.
End Activity.

(** [type Product = Flight | Hotel | Car | Activity] *)
Inductive Product : Set :=
| AFlight (flight : Flight.t)
| AHotel (hotel : Hotel.t)
| ACar (car : Car.t)
| AnActivity (activity : Activity.t).

(** A value as it exists at run time, where the static type [Product] is
    erased: an instance of one of the four classes, or anything else. *)
Inductive Value : Set :=
| AnInstance (product : Product)
| Other (description : string).

(** [v instanceof C], giving access to the instance when it holds. *)
Definition instanceofFlight (v : Value) : option Flight.t :=
  match v with AnInstance (AFlight flight) => Some flight | _ => None end.

Definition instanceofHotel (v : Value) : option Hotel.t :=
  match v with AnInstance (AHotel hotel) => Some hotel | _ => None end.

Definition instanceofCar (v : Value) : option Car.t :=
  match v with AnInstance (ACar car) => Some car | _ => None end.

Definition instanceofActivity (v : Value) : option Activity.t :=
  match v with AnInstance (AnActivity activity) => Some activity | _ => None end.

(** ** Helper functions (the same text in both programs) *)

Definition millisPerDay : number := (24 * 60 * 60 * 1000)%float.

Definition numDays (startDate endDate : Date) : number :=
  let millis := (getTime endDate - getTime startDate)%float in
  (millis / millisPerDay)%float.

Definition formatDate `{Host} (date : Date) : string :=
  toLocaleDateString None date.

Definition formatDateTime `{Host} (date : Date) : string :=
  let options :=
    mkOptions "numeric" "numeric" "numeric" "numeric" "numeric" in
  toLocaleDateString (Some ("en-US"%string, options)) date.

(** The literal ['Itinerary\n========='] and the separator ['\n\n']. *)
Definition header : string := "Itinerary" +s LF +s "=========".

Definition blankLine : string := LF +s LF.

(** ** First program: dispatch by type switch *)

Module TypeSwitch.

Section WithHost.
Context `{Host}.

(** [calculatePrice] and [getItinerary] on an argument of the declared
    type [Product]: one branch of the [instanceof] chain is taken. *)
Definition calculatePrice (product : Product) : number :=
  match product with
  | AFlight product => Flight.price product
  | AHotel product =>
      (numDays (Hotel.checkInDate product) (Hotel.checkOutDate product)
       * Hotel.roomRate product)%float
  | ACar product =>
      (numDays (Car.pickupDate product) (Car.dropOffDate product)
       * Car.dailyRate product)%float
  | AnActivity product => Activity.cost product
  end.

Definition getItineraryFlight (product : Flight.t) : string :=
  "Flight" +s LF +s
  "------" +s LF +s
  (Flight.flightNumber product +s ": " +s Flight.origin product +s "-" +s
   Flight.destination product +s LF) +s
  ("Dep: " +s formatDateTime (Flight.departureTime product) +s LF) +s
  ("Price: $" +s Number_toString (Flight.price product)).

Definition getItineraryHotel (product : Hotel.t) : string :=
  "Hotel" +s LF +s
  "-----" +s LF +s
  (Hotel.id product +s LF) +s
  ("Check in:  " +s formatDate (Hotel.checkInDate product) +s LF) +s
  ("Check out: " +s formatDate (Hotel.checkOutDate product) +s LF) +s
  ("Room rate: $" +s Number_toString (Hotel.roomRate product) +s "/night").

Definition getItineraryCar (product : Car.t) : string :=
  "Car" +s LF +s
  "---" +s LF +s
  ("Vehicle type:" +s Car.vehicleType product +s LF) +s
  ("Pick up:  " +s formatDate (Car.pickupDate product) +s LF) +s
  ("Drop off: " +s formatDate (Car.dropOffDate product) +s LF) +s
  ("Daily rate: $" +s Number_toString (Car.dailyRate product)).

Definition getItineraryActivity (product : Activity.t) : string :=
  "Activity" +s LF +s
  "--------" +s LF +s
  (Activity.id product +s LF) +s
  (formatDateTime (Activity.startTime product) +s LF) +s
  ("Cost: $" +s Number_toString (Activity.cost product)).

Definition getItinerary (product : Product) : string :=
  match product with
  | AFlight product => getItineraryFlight product
  | AHotel product => getItineraryHotel product
  | ACar product => getItineraryCar product
  | AnActivity product => getItineraryActivity product
  end.

(** The same two functions on an arbitrary run-time value: the
    [if ... else if] chain in source order, and the end of the body, which
    is reached when no test holds and returns nothing. *)
Definition calculatePriceOfValue (product : Value) : Completion number :=
  match instanceofFlight product with
  | Some product => Return (Flight.price product)
  | None =>
  match instanceofHotel product with
  | Some product =>
      Return (numDays (Hotel.checkInDate product) (Hotel.checkOutDate product)
              * Hotel.roomRate product)%float
  | None =>
  match instanceofCar product with
  | Some product =>
      Return (numDays (Car.pickupDate product) (Car.dropOffDate product)
              * Car.dailyRate product)%float
  | None =>
  match instanceofActivity product with
  | Some product => Return (Activity.cost product)
  | None => ReturnUndefined
  end end end end.


End WithHost.

(** [class VacationPackage] *)
Module VacationPackage.

Record t : Set := make { products : list Product }.

(** [new VacationPackage()]: the field initialiser [products = []]. *)
Definition new : t := make [].

Definition add (product : Product) : Method.t t unit :=
  this <- Method.get ;;
  Method.put (make (push (products this) product)).

Definition calculatePrice : Method.t t number :=
  this <- Method.get ;;
  Method.ret
    (reduce (fun accumulator product =>
               (accumulator + TypeSwitch.calculatePrice product)%float)
            0%float (products this)).

Definition getItinerary `{Host} : Method.t t string :=
  this <- Method.get ;;
  Method.ret
    (reduce (fun accumulator product =>
               accumulator +s blankLine +s TypeSwitch.getItinerary product)
            header (products this)).

End VacationPackage.

End TypeSwitch.

(** ** Second program: dispatch by visitor (visitor.ts) *)

Module Visitor.

(** [interface ProductVisitor]: one method per product class.  A visit
    method returns nothing and may assign to the visitor's own fields, so
    it is a transformer of the visitor's state [V]; neither visitor of the
    program assigns to a field of the product it is given. *)
Class ProductVisitor (V : Type) : Type := {
  visitFlight : Flight.t -> V -> V;
  visitHotel : Hotel.t -> V -> V;
  visitCar : Car.t -> V -> V;
  visitActivity : Activity.t -> V -> V }.

(** [class PricingVisitor implements ProductVisitor] *)
Module PricingVisitor.

Record t : Set := make { price : number }.

Definition new : t := make 0%float.

Definition visitFlight (flight : Flight.t) (this : t) : t :=
  make (price this + Flight.price flight)%float.

Definition visitHotel (hotel : Hotel.t) (this : t) : t :=
  make (price this
        + numDays (Hotel.checkInDate hotel) (Hotel.checkOutDate hotel)
          * Hotel.roomRate hotel)%float.

Definition visitCar (car : Car.t) (this : t) : t :=
  make (price this
        + numDays (Car.pickupDate car) (Car.dropOffDate car)
          * Car.dailyRate car)%float.

Definition visitActivity (activity : Activity.t) (this : t) : t :=
  make (price this + Activity.cost activity)%float.

End PricingVisitor.

#[export] Instance PricingVisitor_ProductVisitor : ProductVisitor PricingVisitor.t := {
  visitFlight := PricingVisitor.visitFlight;
  visitHotel := PricingVisitor.visitHotel;
  visitCar := PricingVisitor.visitCar;
  visitActivity := PricingVisitor.visitActivity }.

(** [class ItineraryVisitor implements ProductVisitor] *)
Module ItineraryVisitor.

Section WithHost.
Context `{Host}.

Record t : Set := make { itinerary : string }.

Definition new : t := make header.

Definition visitFlight (flight : Flight.t) (this : t) : t :=
  make (itinerary this +s
    (blankLine +s
     "Flight" +s LF +s
     "------" +s LF +s
     (Flight.flightNumber flight +s ": " +s Flight.origin flight +s "-" +s
      Flight.destination flight +s LF) +s
     ("Dep: " +s formatDateTime (Flight.departureTime flight) +s LF) +s
     ("Price: $" +s Number_toString (Flight.price flight)))).

Definition visitHotel (hotel : Hotel.t) (this : t) : t :=
  make (itinerary this +s
    (blankLine +s
     "Hotel" +s LF +s
     "-----" +s LF +s
     (Hotel.id hotel +s LF) +s
     ("Check in:  " +s formatDate (Hotel.checkInDate hotel) +s LF) +s
     ("Check out: " +s formatDate (Hotel.checkOutDate hotel) +s LF) +s
     ("Room rate: $" +s Number_toString (Hotel.roomRate hotel) +s "/night"))).

Definition visitCar (car : Car.t) (this : t) : t :=
  make (itinerary this +s
    (blankLine +s
     "Car" +s LF +s
     "---" +s LF +s
     ("Vehicle type:" +s Car.vehicleType car +s LF) +s
     ("Pick up:  " +s formatDate (Car.pickupDate car) +s LF) +s
     ("Drop off: " +s formatDate (Car.dropOffDate car) +s LF) +s
     ("Daily rate: $" +s Number_toString (Car.dailyRate car)))).

Definition visitActivity (activity : Activity.t) (this : t) : t :=
  make (itinerary this +s
    (blankLine +s
     "Activity" +s LF +s
     "--------" +s LF +s
     (Activity.id activity +s LF) +s
     (formatDateTime (Activity.startTime activity) +s LF) +s
     ("Cost: $" +s Number_toString (Activity.cost activity)))).

End WithHost.

End ItineraryVisitor.

#[export] Instance ItineraryVisitor_ProductVisitor `{Host} :
  ProductVisitor ItineraryVisitor.t := {
  visitFlight := ItineraryVisitor.visitFlight;
  visitHotel := ItineraryVisitor.visitHotel;
  visitCar := ItineraryVisitor.visitCar;
  visitActivity := ItineraryVisitor.visitActivity }.

(** A visitor that only records which of its methods were called, with
    which argument, in call order. *)
Inductive Call : Set :=
| CallVisitFlight (flight : Flight.t)
| CallVisitHotel (hotel : Hotel.t)
| CallVisitCar (car : Car.t)
| CallVisitActivity (activity : Activity.t).

#[export] Instance Recorder : ProductVisitor (list Call) := {
  visitFlight flight calls := calls ++ [CallVisitFlight flight];
  visitHotel hotel calls := calls ++ [CallVisitHotel hotel];
  visitCar car calls := calls ++ [CallVisitCar car];
  visitActivity activity calls := calls ++ [CallVisitActivity activity] }.

(** The [accept] method of each class. *)
Section Accept.
Context {V : Type} `{ProductVisitor V}.

Definition Flight_accept (this : Flight.t) (v : V) : V := visitFlight this v.

Definition Hotel_accept (this : Hotel.t) (v : V) : V := visitHotel this v.

Definition Car_accept (this : Car.t) (v : V) : V := visitCar this v.

Definition Activity_accept (this : Activity.t) (v : V) : V := visitActivity this v.

(** [interface VisitableProduct]: its implementations are the four
    classes; a call [product.accept(v)] runs the method of the receiver's
    class. *)
Definition VisitableProduct : Set := Product.

Definition accept (product : VisitableProduct) (v : V) : V :=
  match product with
  | AFlight this => Flight_accept this v
  | AHotel this => Hotel_accept this v
  | ACar this => Car_accept this v
  | AnActivity this => Activity_accept this v
  end.

End Accept.

(** [class VacationPackage] *)
Module VacationPackage.

Record t : Set := make { products : list VisitableProduct }.

Definition new : t := make [].

Definition add (product : VisitableProduct) : Method.t t unit :=
  this <- Method.get ;;
  Method.put (make (push (products this) product)).

Definition calculatePrice : Method.t t number :=
  this <- Method.get ;;
  let pricingVisitor := PricingVisitor.new in
  let pricingVisitor :=
    forEach (fun product => accept product) (products this) pricingVisitor in
  Method.ret (PricingVisitor.price pricingVisitor).

Definition getItinerary `{Host} : Method.t t string :=
  this <- Method.get ;;
  let itineraryVisitor := ItineraryVisitor.new in
  let itineraryVisitor :=
    forEach (fun product => accept product) (products this) itineraryVisitor in
  Method.ret (ItineraryVisitor.itinerary itineraryVisitor).

End VacationPackage.

End Visitor.

(** ** The test script at the end of both programs *)

Definition startDate : Date := Date_ofISODate 2019 12 30.
Definition endDate : Date := Date_ofISODate 2020 1 1.

Definition testProducts : list Product :=
  [ AFlight (Flight.make "TV 312" "BOS" "JFK" startDate 300);
    AFlight (Flight.make "TV 313" "JFK" "BOS" endDate 300);
    AHotel (Hotel.make "Hilton Times Square" startDate endDate 400);
    ACar (Car.make "SUV" startDate endDate 150);
    AnActivity (Activity.make "Hamilton" startDate 200) ].

Module TypeSwitchTest.
Import TypeSwitch.

Definition pkg : VacationPackage.t :=
  Method.after
    (VacationPackage.add (AFlight (Flight.make "TV 312" "BOS" "JFK" startDate 300)) ;;
     VacationPackage.add (AFlight (Flight.make "TV 313" "JFK" "BOS" endDate 300)) ;;
     VacationPackage.add (AHotel (Hotel.make "Hilton Times Square" startDate endDate 400)) ;;
     VacationPackage.add (ACar (Car.make "SUV" startDate endDate 150)) ;;
     VacationPackage.add (AnActivity (Activity.make "Hamilton" startDate 200)))
    VacationPackage.new.

Definition price : number := Method.result VacationPackage.calculatePrice pkg.

Definition itinerary `{Host} : string := Method.result VacationPackage.getItinerary pkg.

End TypeSwitchTest.

Module VisitorTest.
Import Visitor.

Definition pkg : VacationPackage.t :=
  Method.after
    (VacationPackage.add (AFlight (Flight.make "TV 312" "BOS" "JFK" startDate 300)) ;;
     VacationPackage.add (AFlight (Flight.make "TV 313" "JFK" "BOS" endDate 300)) ;;
     VacationPackage.add (AHotel (Hotel.make "Hilton Times Square" startDate endDate 400)) ;;
     VacationPackage.add (ACar (Car.make "SUV" startDate endDate 150)) ;;
     VacationPackage.add (AnActivity (Activity.make "Hamilton" startDate 200)))
    VacationPackage.new.

Definition price : number := Method.result VacationPackage.calculatePrice pkg.

Definition itinerary `{Host} : string := Method.result VacationPackage.getItinerary pkg.

End VisitorTest.

(** ** Reference definitions used to state the properties *)

(** The itinerary text as the specification words it: after the header,
    for every block in order, a blank-line separator and then the block. *)
Fixpoint sections (blocks : list string) : string :=
  match blocks with
  | [] => EmptyString
  | block :: rest => blankLine +s block +s sections rest
  end.

Definition itineraryText (blocks : list string) : string :=
  header +s sections blocks.

(** The left-to-right sum of a list of numbers, starting from [0]. *)
Definition sumFromZero (prices : list number) : number :=
  fold_left (fun accumulator price => (accumulator + price)%float) prices 0%float.

(** A sequence of [add] calls, one per element and in order. *)
Fixpoint addAllT (ps : list Product) : Method.t TypeSwitch.VacationPackage.t unit :=
  match ps with
  | [] => Method.ret tt
  | p :: rest => TypeSwitch.VacationPackage.add p ;; addAllT rest
  end.

Fixpoint addAllV (ps : list Product) : Method.t Visitor.VacationPackage.t unit :=
  match ps with
  | [] => Method.ret tt
  | p :: rest => Visitor.VacationPackage.add p ;; addAllV rest
  end.

(** The sum of the magnitudes of a list of integers. *)
Fixpoint sumAbs (zs : list Z) : Z :=
  match zs with
  | [] => 0%Z
  | z :: rest => (Z.abs z + sumAbs rest)%Z
  end.

Fixpoint sumZ (zs : list Z) : Z :=
  match zs with
  | [] => 0%Z
  | z :: rest => (z + sumZ rest)%Z
  end.

(** A mantissa shifted left by [j] bits, and the binary64 value, as the
    standard library specifies it, that the integer [z] rounds to. *)
Definition shl (p : positive) (j : Z) : positive :=
  match j with Zpos q => Pos.iter xO p q | _ => p end.

Definition SFofZ (z : Z) : spec_float := binary_normalize prec emax z 0 false.

(** Three flights at 0.1, 0.2 and 0.3 (the binary64 values nearest to
    these decimals, as the literals of the programs denote). *)
#[local] Set Warnings "-inexact-float".

Definition cheapFlights : list Product :=
  [ AFlight (Flight.make "A 1" "BOS" "JFK" startDate 0.1);
    AFlight (Flight.make "A 2" "JFK" "BOS" startDate 0.2);
    AFlight (Flight.make "A 3" "BOS" "JFK" endDate 0.3) ].

#[local] Set Warnings "inexact-float".

(** The text the script prints for its five products, the host's
    renderings of the two dates and of the five amounts left as they are. *)
Definition expectedItinerary `{Host} : string :=
("Itinerary
=========

Flight
------
TV 312: BOS-JFK
Dep: " ++ formatDateTime startDate ++ "
Price: $" ++ Number_toString 300 ++ "

Flight
------
TV 313: JFK-BOS
Dep: " ++ formatDateTime endDate ++ "
Price: $" ++ Number_toString 300 ++ "

Hotel
-----
Hilton Times Square
Check in:  " ++ formatDate startDate ++ "
Check out: " ++ formatDate endDate ++ "
Room rate: $" ++ Number_toString 400 ++ "/night

Car
---
Vehicle type:SUV
Pick up:  " ++ formatDate startDate ++ "
Drop off: " ++ formatDate endDate ++ "
Daily rate: $" ++ Number_toString 150 ++ "

Activity
--------
Hamilton
" ++ formatDateTime startDate ++ "
Cost: $" ++ Number_toString 200)%string.

(** The title line of a product's block, and an underline of [n] dashes. *)
Definition kindTitle (product : Product) : string :=
  match product with
  | AFlight _ => "Flight"
  | AHotel _ => "Hotel"
  | ACar _ => "Car"
  | AnActivity _ => "Activity"
  end.

Fixpoint underline (n : nat) : string :=
  match n with
  | O => EmptyString
  | S n' => String "-" (underline n')
  end.

(** * Properties *)

(** ** Binary64 arithmetic *)

Module NumberFacts.

Local Open Scope float_scope.

Lemma Prim2SF_zero : Prim2SF 0 = S754_zero false.
Proof. reflexivity. Qed.

Lemma finite_cases (x : number) :
  is_finite x = true ->
  (exists s, Prim2SF x = S754_zero s) \/ (exists s m e, Prim2SF x = S754_finite s m e).
Proof.
  unfold is_finite, is_nan, is_infinity.
  rewrite !FloatAxioms.eqb_spec, abs_spec.
  destruct (Prim2SF x) as [s|s| |s m e]; intros Hf.
  - left; eauto.
  - exfalso. destruct s; vm_compute in Hf; discriminate.
  - exfalso. vm_compute in Hf; discriminate.
  - right; eauto.
Qed.

(** [x - x] is [+0] for a finite [x]. *)
Lemma sub_diag (x : number) : is_finite x = true -> x - x = 0.
Proof.
  intros Hf. apply Prim2SF_inj. rewrite sub_spec, Prim2SF_zero.
  destruct (finite_cases x Hf) as [[s ->]|(s & m & e & ->)].
  - destruct s; reflexivity.
  - unfold SF64sub, SFsub. rewrite Z.min_id.
    unfold shl_align. rewrite !Z.sub_diag. reflexivity.
Qed.

(** [+0] is a left unit of the addition, except on [-0]. *)
Lemma add_zero_l (x : number) : x <> neg_zero -> 0 + x = x.
Proof.
  intros Hx. apply Prim2SF_inj. rewrite add_spec, Prim2SF_zero.
  destruct (Prim2SF x) as [[|]|s| |s m e] eqn:E; try reflexivity.
  exfalso. apply Hx. apply Prim2SF_inj. now rewrite E.
Qed.

Lemma sameValueZero_refl (x : number) : sameValueZero x x = true.
Proof.
  unfold sameValueZero, strictEquals, is_nan.
  destruct (x =? x); reflexivity.
Qed.

(** The sign of the result of a rounding is the sign it is given. *)
Lemma binary_round_aux_opp s m e l :
  binary_round_aux prec emax (negb s) m e l
  = SFopp (binary_round_aux prec emax s m e l).
Proof.
  unfold binary_round_aux.
  destruct (shr_fexp prec emax m e l) as [mrs' e'].
  destruct (shr_fexp prec emax _ e' loc_Exact) as [mrs'' e''].
  destruct (shr_m mrs''); try reflexivity.
  destruct (Z.leb e'' _); reflexivity.
Qed.

Lemma binary_normalize_opp z e :
  z <> 0%Z ->
  binary_normalize prec emax (- z) e false
  = SFopp (binary_normalize prec emax z e false).
Proof.
  destruct z as [|p|p]; intros Hz; [congruence| |];
    cbn [Z.opp binary_normalize]; unfold binary_round;
    destruct (shl_align p e _) as [mz ez].
  - apply (binary_round_aux_opp false).
  - apply (binary_round_aux_opp true).
Qed.




End NumberFacts.

(** ** Integers in binary64

    Integers of magnitude below [2^53] are binary64 values, and as long as
    a sum of such integers stays below [2^53] the addition is exact. *)

Module IntegerFacts.

Local Open Scope Z_scope.

Lemma Zpos_iter_xO p q : Zpos (Pos.iter xO p q) = Zpos p * 2 ^ Zpos q.
Proof.
  induction q as [|q IH] using Pos.peano_ind.
  - cbn. lia.
  - rewrite Pos.iter_succ, Pos2Z.inj_succ, Z.pow_succ_r by lia.
    rewrite Pos2Z.inj_xO, IH. ring.
Qed.

Lemma Zpos_shl p j : 0 <= j -> Zpos (shl p j) = Zpos p * 2 ^ j.
Proof.
  destruct j as [|q|q]; intros Hj; cbn [shl].
  - cbn. lia.
  - apply Zpos_iter_xO.
  - lia.
Qed.

Lemma digits_iter_xO p q :
  Zpos (digits2_pos (Pos.iter xO p q)) = Zpos (digits2_pos p) + Zpos q.
Proof.
  induction q as [|q IH] using Pos.peano_ind.
  - cbn. lia.
  - rewrite Pos.iter_succ. cbn [digits2_pos]. rewrite Pos2Z.inj_succ, IH. lia.
Qed.

Lemma digits_shl p j : 0 <= j ->
  Zpos (digits2_pos (shl p j)) = Zpos (digits2_pos p) + j.
Proof.
  destruct j as [|q|q]; intros Hj; cbn [shl]; [lia| |lia].
  apply digits_iter_xO.
Qed.

Lemma shl_shl p i j : 0 <= i -> 0 <= j -> shl (shl p i) j = shl p (i + j).
Proof.
  intros Hi Hj. apply Pos2Z.inj. rewrite !Zpos_shl by lia.
  rewrite Z.pow_add_r by lia. ring.
Qed.

Lemma iter_pos_eq {A} (f : A -> A) q x : iter_pos f q x = Pos.iter f x q.
Proof.
  revert x; induction q as [q IH|q IH|]; intros x; cbn.
  - rewrite !IH. rewrite <- !Pos.iter_swap. reflexivity.
  - now rewrite !IH.
  - reflexivity.
Qed.

Lemma iter_shr_exact p q :
  iter_pos shr_1 q (Build_shr_record (Zpos (Pos.iter xO p q)) false false)
  = Build_shr_record (Zpos p) false false.
Proof.
  rewrite iter_pos_eq.
  induction q as [|q IH] using Pos.peano_ind.
  - reflexivity.
  - rewrite Pos.iter_succ_r. rewrite Pos.iter_succ. cbn [shr_1 orb]. exact IH.
Qed.

Lemma digits2_size p : digits2_pos p = Pos.size p.
Proof.
  induction p as [p IH|p IH|]; cbn [digits2_pos Pos.size];
    [now rewrite IH|now rewrite IH|reflexivity].
Qed.

Lemma digits_bound p : Zpos p < 2 ^ 53 -> Zpos (digits2_pos p) <= 53.
Proof.
  intros Hp. rewrite digits2_size.
  destruct (Z_le_gt_dec (Zpos (Pos.size p)) 53) as [Hle|Hgt]; [exact Hle|exfalso].
  pose proof (Pos.size_le p) as Hs.
  apply Pos2Z.pos_le_pos in Hs.
  rewrite Pos2Z.inj_pow in Hs. rewrite (Pos2Z.inj_xO p) in Hs.
  assert (H2 : 2 ^ 54 <= 2 ^ Zpos (Pos.size p)) by (apply Z.pow_le_mono_r; lia).
  assert (H3 : 2 ^ 54 = 2 * 2 ^ 53) by reflexivity.
  lia.
Qed.

Lemma fexp_digits d : 1 <= d -> fexp prec emax d = d - 53.
Proof. unfold fexp, SpecFloat.emin, prec, emax. lia. Qed.

Lemma shr_fexp_exact p n :
  Zpos (digits2_pos p) <= 53 -> 0 <= n ->
  shr_fexp prec emax (Zpos (shl p (53 - Zpos (digits2_pos p) + n)))
           (Zpos (digits2_pos p) - 53 - n) loc_Exact
  = (Build_shr_record (Zpos (shl p (53 - Zpos (digits2_pos p)))) false false,
     Zpos (digits2_pos p) - 53).
Proof.
  set (d := Zpos (digits2_pos p)). intros Hd Hn.
  assert (Hd1 : 1 <= d) by (subst d; lia).
  unfold shr_fexp. cbn [Zdigits2 shr_record_of_loc].
  rewrite digits_shl by lia. fold d.
  replace (d + (53 - d + n) + (d - 53 - n)) with d by lia.
  rewrite fexp_digits by exact Hd1.
  replace (d - 53 - (d - 53 - n)) with n by lia.
  destruct n as [|q|q]; [| |lia]; cbn [shr].
  - now rewrite Z.add_0_r, Z.sub_0_r.
  - rewrite <- (shl_shl p (i := 53 - d) (j := Zpos q)) by lia.
    cbn [shl]. rewrite iter_shr_exact. f_equal. lia.
Qed.

Lemma binary_round_aux_exact s p n :
  Zpos (digits2_pos p) <= 53 -> 0 <= n ->
  binary_round_aux prec emax s (Zpos (shl p (53 - Zpos (digits2_pos p) + n)))
                   (Zpos (digits2_pos p) - 53 - n) loc_Exact
  = S754_finite s (shl p (53 - Zpos (digits2_pos p))) (Zpos (digits2_pos p) - 53).
Proof.
  intros Hd Hn. unfold binary_round_aux.
  rewrite shr_fexp_exact by assumption.
  cbn [shr_m loc_of_shr_record round_nearest_even].
  pose proof (shr_fexp_exact p (n := 0) Hd (Z.le_refl 0)) as E.
  rewrite Z.add_0_r, Z.sub_0_r in E. rewrite E. cbn [shr_m].
  replace (Zpos (digits2_pos p) - 53 <=? emax - prec) with true; [reflexivity|].
  symmetry. apply Z.leb_le. unfold emax, prec. lia.
Qed.

Lemma binary_round_exact s p j :
  Zpos (digits2_pos p) <= 53 -> 0 <= j ->
  binary_round prec emax s (shl p j) (- j)
  = S754_finite s (shl p (53 - Zpos (digits2_pos p))) (Zpos (digits2_pos p) - 53).
Proof.
  set (d := Zpos (digits2_pos p)). intros Hd Hj.
  assert (Hd1 : 1 <= d) by (subst d; lia).
  unfold binary_round. rewrite digits_shl by lia. fold d.
  replace (d + j + - j) with d by lia. rewrite fexp_digits by exact Hd1.
  unfold shl_align.
  destruct (d - 53 - - j) as [|q|q] eqn:E.
  - replace j with (53 - d + 0) at 1 by lia.
    replace (- j) with (d - 53 - 0) by lia.
    apply binary_round_aux_exact; [exact Hd|lia].
  - replace j with (53 - d + Zpos q) at 1 by lia.
    replace (- j) with (d - 53 - Zpos q) by lia.
    apply binary_round_aux_exact; [exact Hd|lia].
  - change (Pos.iter xO (shl p j) q) with (shl (shl p j) (Zpos q)).
    rewrite shl_shl by lia.
    replace (j + Zpos q) with (53 - d + 0) by lia.
    replace (d - 53) with (d - 53 - 0) at 1 by lia.
    apply binary_round_aux_exact; [exact Hd|lia].
Qed.

Lemma Prim2SF_Z2number z : Z.abs z < 2 ^ 63 -> Prim2SF (Z2number z) = SFofZ z.
Proof.
  intros Hz. unfold Z2number, SFofZ.
  destruct (z <? 0) eqn:E.
  - apply Z.ltb_lt in E.
    rewrite opp_spec, of_uint63_spec, Uint63.of_Z_spec.
    rewrite Z.mod_small by (change wB with (2 ^ 63); lia).
    rewrite <- NumberFacts.binary_normalize_opp by lia. now rewrite Z.opp_involutive.
  - apply Z.ltb_ge in E.
    rewrite of_uint63_spec, Uint63.of_Z_spec.
    now rewrite Z.mod_small by (change wB with (2 ^ 63); lia).
Qed.

Lemma SFofZ_normal_form z :
  z <> 0 -> Z.abs z < 2 ^ 53 ->
  SFofZ z
  = S754_finite (z <? 0)
      (shl (Z.to_pos (Z.abs z)) (53 - Zpos (digits2_pos (Z.to_pos (Z.abs z)))))
      (Zpos (digits2_pos (Z.to_pos (Z.abs z))) - 53).
Proof.
  intros Hz Hb. unfold SFofZ.
  destruct z as [|p|p]; [congruence| |]; cbn [binary_normalize Z.abs Z.to_pos Z.ltb Z.compare];
    apply (binary_round_exact _ p (j := 0)); try lia; apply digits_bound; exact Hb.
Qed.

Lemma binary_normalize_scaled z k :
  z <> 0 -> Z.abs z < 2 ^ 53 -> 0 <= k ->
  binary_normalize prec emax (z * 2 ^ k) (- k) false = SFofZ z.
Proof.
  intros Hz Hb Hk. rewrite (SFofZ_normal_form Hz Hb).
  destruct z as [|p|p]; [congruence| |].
  - rewrite <- (Zpos_shl p Hk). cbn [binary_normalize Z.abs Z.to_pos Z.ltb Z.compare].
    apply binary_round_exact; [apply digits_bound; exact Hb | exact Hk].
  - replace (Zneg p * 2 ^ k) with (- Zpos (shl p k)) by (rewrite (Zpos_shl p Hk); lia).
    cbn [Z.opp binary_normalize Z.abs Z.to_pos Z.ltb Z.compare].
    apply binary_round_exact; [apply digits_bound; exact Hb | exact Hk].
Qed.

Lemma shl_align_value M e ez :
  ez <= e -> Zpos (fst (shl_align M e ez)) = Zpos M * 2 ^ (e - ez).
Proof.
  intros Hle. unfold shl_align.
  destruct (ez - e) as [|q|q] eqn:E; cbn [fst].
  - replace (e - ez) with 0 by lia. cbn. lia.
  - lia.
  - rewrite Zpos_iter_xO. f_equal. f_equal. lia.
Qed.

Lemma cond_Zopp_abs z : cond_Zopp (z <? 0) (Z.abs z) = z.
Proof.
  destruct z; reflexivity.
Qed.

Lemma aligned_value z ez :
  z <> 0 -> Z.abs z < 2 ^ 53 ->
  ez <= Zpos (digits2_pos (Z.to_pos (Z.abs z))) - 53 ->
  cond_Zopp (z <? 0)
    (Zpos (fst (shl_align
                  (shl (Z.to_pos (Z.abs z)) (53 - Zpos (digits2_pos (Z.to_pos (Z.abs z)))))
                  (Zpos (digits2_pos (Z.to_pos (Z.abs z))) - 53) ez)))
  = z * 2 ^ (- ez).
Proof.
  intros Hz Hb He.
  assert (Hp : Zpos (Z.to_pos (Z.abs z)) = Z.abs z) by (apply Z2Pos.id; lia).
  set (p := Z.to_pos (Z.abs z)) in *.
  assert (Hd : Zpos (digits2_pos p) <= 53) by (apply digits_bound; lia).
  set (d := Zpos (digits2_pos p)) in *.
  rewrite shl_align_value by exact He.
  rewrite Zpos_shl by lia. rewrite Hp.
  rewrite <- Z.mul_assoc, <- Z.pow_add_r by lia.
  replace (53 - d + (d - 53 - ez)) with (- ez) by lia.
  rewrite <- (cond_Zopp_abs z) at 3.
  destruct (z <? 0); cbn [cond_Zopp]; lia.
Qed.

Lemma SFofZ_zero : SFofZ 0 = S754_zero false.
Proof. reflexivity. Qed.

Lemma SF64add_SFofZ a b :
  Z.abs a < 2 ^ 53 -> Z.abs b < 2 ^ 53 -> Z.abs (a + b) < 2 ^ 53 ->
  SF64add (SFofZ a) (SFofZ b) = SFofZ (a + b).
Proof.
  intros Ha Hb Hab.
  destruct (Z.eq_dec a 0) as [->|Na].
  { rewrite Z.add_0_l, SFofZ_zero.
    destruct (Z.eq_dec b 0) as [->|Nb]; [reflexivity|].
    now rewrite (SFofZ_normal_form Nb Hb). }
  destruct (Z.eq_dec b 0) as [->|Nb].
  { rewrite Z.add_0_r, SFofZ_zero. now rewrite (SFofZ_normal_form Na Ha). }
  rewrite (SFofZ_normal_form Na Ha), (SFofZ_normal_form Nb Hb).
  unfold SF64add, SFadd.
  set (ea := Zpos (digits2_pos (Z.to_pos (Z.abs a))) - 53).
  set (eb := Zpos (digits2_pos (Z.to_pos (Z.abs b))) - 53).
  assert (Hea : ea <= 0).
  { pose proof (@digits_bound (Z.to_pos (Z.abs a))) as D.
    rewrite Z2Pos.id in D by lia. subst ea. lia. }
  set (ez := Z.min ea eb).
  assert (Hez : ez <= 0) by (subst ez; lia).
  unfold ea at 1. rewrite (aligned_value (ez := ez) Na Ha) by (fold ea; subst ez; lia).
  unfold eb at 1. rewrite (aligned_value (ez := ez) Nb Hb) by (fold eb; subst ez; lia).
  rewrite <- Z.mul_add_distr_r.
  destruct (Z.eq_dec (a + b) 0) as [E|Nab].
  - rewrite E. reflexivity.
  - replace ez with (- (- ez)) at 2 by lia.
    apply binary_normalize_scaled; [exact Nab | exact Hab | lia].
Qed.

Lemma Z2number_add a b :
  Z.abs a < 2 ^ 53 -> Z.abs b < 2 ^ 53 -> Z.abs (a + b) < 2 ^ 53 ->
  (Z2number a + Z2number b)%float = Z2number (a + b).
Proof.
  intros Ha Hb Hab.
  assert (H63 : 2 ^ 53 < 2 ^ 63) by reflexivity.
  apply Prim2SF_inj. rewrite add_spec.
  rewrite !Prim2SF_Z2number by lia.
  now apply SF64add_SFofZ.
Qed.

Lemma sumAbs_nonneg zs : 0 <= sumAbs zs.
Proof. induction zs as [|z zs IH]; cbn; lia. Qed.

Lemma fold_left_Z2number zs acc :
  Z.abs acc + sumAbs zs < 2 ^ 53 ->
  fold_left (fun accumulator price => (accumulator + price)%float)
            (map Z2number zs) (Z2number acc)
  = Z2number (acc + sumZ zs).
Proof.
  revert acc; induction zs as [|z zs IH]; intros acc Hb; cbn [map fold_left sumZ].
  - now rewrite Z.add_0_r.
  - cbn [sumAbs] in Hb.
    pose proof (sumAbs_nonneg zs) as Hs.
    rewrite Z2number_add by lia.
    rewrite IH by lia. f_equal. lia.
Qed.

Lemma sumZ_Permutation zs zs' : Permutation zs zs' -> sumZ zs = sumZ zs'.
Proof. induction 1; cbn in *; lia. Qed.

Lemma sumAbs_Permutation zs zs' : Permutation zs zs' -> sumAbs zs = sumAbs zs'.
Proof. induction 1; cbn in *; lia. Qed.

End IntegerFacts.

(** ** Strings, arrays and methods *)

Module RuntimeFacts.

Lemma append_assoc (a b c : string) : a +s b +s c = a +s (b +s c).
Proof. induction a as [|ch a IH]; cbn; [reflexivity | now rewrite IH]. Qed.

Lemma append_empty_r (a : string) : a +s EmptyString = a.
Proof. induction a as [|ch a IH]; cbn; [reflexivity | now rewrite IH]. Qed.

Lemma after_seq {S A B : Type} (m : Method.t S A) (k : Method.t S B) (this : S) :
  Method.after (m ;; k) this = Method.after k (Method.after m this).
Proof. unfold Method.after, Method.bind. now destruct (m this). Qed.

End RuntimeFacts.

(** Reassociate every concatenation to the right. *)
Ltac right_nested := rewrite ?RuntimeFacts.append_assoc.

(** ** The helper functions *)

Module HelperFacts.

Local Open Scope float_scope.

Lemma millisPerDay_value : millisPerDay = 86400000.
Proof. reflexivity. Qed.


Lemma zero_div_millisPerDay : 0 / millisPerDay = 0.
Proof. reflexivity. Qed.

Lemma numDays_same (d : Date) : validDate d = true -> numDays d d = 0.
Proof.
  unfold validDate, numDays. intros Hd.
  rewrite (NumberFacts.sub_diag _ Hd). apply zero_div_millisPerDay.
Qed.

(** For an Invalid Date the difference is [NaN], hence the hypothesis above. *)
Lemma numDays_invalid_date : numDays (mkDate nan) (mkDate nan) = nan.
Proof. reflexivity. Qed.


End HelperFacts.



(** ** The two dispatch strategies *)

Module DispatchFacts.

Import Visitor.

Local Open Scope float_scope.

Lemma addAllT_after (ps : list Product) (pkg : TypeSwitch.VacationPackage.t) :
  Method.after (addAllT ps) pkg
  = TypeSwitch.VacationPackage.make (TypeSwitch.VacationPackage.products pkg ++ ps).
Proof.
  revert pkg; induction ps as [|p ps IH]; intros [qs]; cbn [addAllT addAllV].
  - cbn. now rewrite app_nil_r.
  - rewrite RuntimeFacts.after_seq, IH. cbn.
    unfold push. now rewrite <- app_assoc.
Qed.

Lemma addAllV_after (ps : list Product) (pkg : Visitor.VacationPackage.t) :
  Method.after (addAllV ps) pkg
  = Visitor.VacationPackage.make (Visitor.VacationPackage.products pkg ++ ps).
Proof.
  revert pkg; induction ps as [|p ps IH]; intros [qs]; cbn [addAllT addAllV].
  - cbn. now rewrite app_nil_r.
  - rewrite RuntimeFacts.after_seq, IH. cbn.
    unfold push. now rewrite <- app_assoc.
Qed.

(** One [accept] adds the product's price to the visitor's total. *)
Lemma price_accept (P : Product) (v : PricingVisitor.t) :
  PricingVisitor.price (accept P v)
  = PricingVisitor.price v + TypeSwitch.calculatePrice P.
Proof. destruct P; reflexivity. Qed.

Lemma price_forEach (ps : list Product) (v : PricingVisitor.t) :
  PricingVisitor.price (forEach (fun product => accept product) ps v)
  = fold_left (fun accumulator product =>
                 accumulator + TypeSwitch.calculatePrice product)
              ps (PricingVisitor.price v).
Proof.
  revert v; induction ps as [|p ps IH]; intros v; cbn [forEach fold_left].
  - reflexivity.
  - now rewrite IH, price_accept.
Qed.

Lemma fold_left_prices (ps : list Product) (acc : number) :
  fold_left (fun accumulator product =>
               accumulator + TypeSwitch.calculatePrice product) ps acc
  = fold_left (fun accumulator price => accumulator + price)
              (map TypeSwitch.calculatePrice ps) acc.
Proof. revert acc; induction ps as [|p ps IH]; intros acc; cbn; auto. Qed.

Section WithHost.
Context `{Host}.

(** One [accept] appends the separator and the product's block. *)
Lemma itinerary_accept (P : Product) (v : ItineraryVisitor.t) :
  ItineraryVisitor.itinerary (accept P v)
  = ItineraryVisitor.itinerary v +s (blankLine +s TypeSwitch.getItinerary P).
Proof.
  destruct P;
    cbv [accept Flight_accept Hotel_accept Car_accept Activity_accept
         visitFlight visitHotel visitCar visitActivity
         ItineraryVisitor_ProductVisitor
         ItineraryVisitor.visitFlight ItineraryVisitor.visitHotel
         ItineraryVisitor.visitCar ItineraryVisitor.visitActivity
         ItineraryVisitor.itinerary TypeSwitch.getItinerary
         TypeSwitch.getItineraryFlight TypeSwitch.getItineraryHotel
         TypeSwitch.getItineraryCar TypeSwitch.getItineraryActivity];
    right_nested; reflexivity.
Qed.

Lemma itinerary_forEach (ps : list Product) (v : ItineraryVisitor.t) :
  ItineraryVisitor.itinerary (forEach (fun product => accept product) ps v)
  = fold_left (fun accumulator product =>
                 accumulator +s blankLine +s TypeSwitch.getItinerary product)
              ps (ItineraryVisitor.itinerary v).
Proof.
  revert v; induction ps as [|p ps IH]; intros v; cbn [forEach fold_left].
  - reflexivity.
  - rewrite IH, itinerary_accept. now right_nested.
Qed.

Lemma fold_left_sections (ps : list Product) (acc : string) :
  fold_left (fun accumulator product =>
               accumulator +s blankLine +s TypeSwitch.getItinerary product)
            ps acc
  = acc +s sections (map TypeSwitch.getItinerary ps).
Proof.
  revert acc; induction ps as [|p ps IH]; intros acc; cbn [fold_left map sections].
  - now rewrite RuntimeFacts.append_empty_r.
  - rewrite IH. now right_nested.
Qed.

Lemma typeSwitch_price (pkg : TypeSwitch.VacationPackage.t) :
  Method.result TypeSwitch.VacationPackage.calculatePrice pkg
  = sumFromZero (map TypeSwitch.calculatePrice (TypeSwitch.VacationPackage.products pkg)).
Proof. apply fold_left_prices. Qed.

Lemma visitor_price (pkg : Visitor.VacationPackage.t) :
  Method.result Visitor.VacationPackage.calculatePrice pkg
  = sumFromZero (map TypeSwitch.calculatePrice (Visitor.VacationPackage.products pkg)).
Proof.
  unfold Method.result; cbn. rewrite price_forEach. apply fold_left_prices.
Qed.

Lemma typeSwitch_itinerary (pkg : TypeSwitch.VacationPackage.t) :
  Method.result TypeSwitch.VacationPackage.getItinerary pkg
  = itineraryText (map TypeSwitch.getItinerary (TypeSwitch.VacationPackage.products pkg)).
Proof. apply fold_left_sections. Qed.

Lemma visitor_itinerary (pkg : Visitor.VacationPackage.t) :
  Method.result Visitor.VacationPackage.getItinerary pkg
  = itineraryText (map TypeSwitch.getItinerary (Visitor.VacationPackage.products pkg)).
Proof.
  unfold Method.result; cbn. rewrite itinerary_forEach. apply fold_left_sections.
Qed.

End WithHost.

End DispatchFacts.

(** ** The properties of the programs *)

Section Claims.

Import Visitor.
Context `{Host}.

Local Open Scope float_scope.

(** C1. For every product [P] of the four kinds the visitor path gives
    the same number as the type switch: a fresh [PricingVisitor] holds
    [0 + calculatePrice P] after [P.accept], which is [calculatePrice P]
    itself (in the one case where that is the negative zero, the positive
    zero, the same number under [===]); and the text an [ItineraryVisitor]
    appends for [P] is the separator followed by exactly the block
    [getItinerary P].  Hence, for every sequence of [add] calls, the two
    [VacationPackage] classes return the same total price and the same
    itinerary text. *)
Theorem visitor_agrees_with_type_switch :
  (forall (P : Product) (v : PricingVisitor.t),
     PricingVisitor.price (accept P v)
     = PricingVisitor.price v + TypeSwitch.calculatePrice P)
  /\ (forall P : Product,
        PricingVisitor.price (accept P PricingVisitor.new)
        = (if Leibniz.eqb (TypeSwitch.calculatePrice P) neg_zero then 0
           else TypeSwitch.calculatePrice P)
        /\ sameValueZero (PricingVisitor.price (accept P PricingVisitor.new))
                         (TypeSwitch.calculatePrice P) = true)
  /\ (forall (P : Product) (v : ItineraryVisitor.t),
        ItineraryVisitor.itinerary (accept P v)
        = ItineraryVisitor.itinerary v +s (blankLine +s TypeSwitch.getItinerary P))
  /\ (forall ps : list Product,
        let pkgT := Method.after (addAllT ps) TypeSwitch.VacationPackage.new in
        let pkgV := Method.after (addAllV ps) Visitor.VacationPackage.new in
        TypeSwitch.VacationPackage.products pkgT = ps
        /\ Visitor.VacationPackage.products pkgV = ps
        /\ Method.result TypeSwitch.VacationPackage.calculatePrice pkgT
           = Method.result Visitor.VacationPackage.calculatePrice pkgV
        /\ Method.result TypeSwitch.VacationPackage.getItinerary pkgT
           = Method.result Visitor.VacationPackage.getItinerary pkgV).
Proof.
  split; [exact DispatchFacts.price_accept|].
  split; [|split; [exact DispatchFacts.itinerary_accept|]].
  - intros P. rewrite DispatchFacts.price_accept. cbn [PricingVisitor.price PricingVisitor.new].
    destruct (Leibniz.eqb (TypeSwitch.calculatePrice P) neg_zero) eqn:E.
    + apply Leibniz.eqb_spec in E. rewrite E. split; reflexivity.
    + assert (Hn : TypeSwitch.calculatePrice P <> neg_zero).
      { intros Hz. rewrite Hz in E. discriminate E. }
      rewrite (NumberFacts.add_zero_l Hn).
      split; [reflexivity | apply NumberFacts.sameValueZero_refl].
  - intros ps pkgT pkgV. subst pkgT pkgV.
    rewrite DispatchFacts.addAllT_after, DispatchFacts.addAllV_after.
    cbn [TypeSwitch.VacationPackage.products TypeSwitch.VacationPackage.new
         Visitor.VacationPackage.products Visitor.VacationPackage.new app].
    repeat split.
    + now rewrite DispatchFacts.typeSwitch_price, DispatchFacts.visitor_price.
    + now rewrite DispatchFacts.typeSwitch_itinerary, DispatchFacts.visitor_itinerary.
Qed.

(** C2. [calculatePrice] returns the flat [price] field for a Flight,
    [numDays(checkInDate, checkOutDate) * roomRate] for a Hotel,
    [numDays(pickupDate, dropOffDate) * dailyRate] for a Car and the flat
    [cost] field for an Activity; the [instanceof] chain returns these
    values, and the four methods of [PricingVisitor] add them to the
    running total. *)
Theorem calculatePrice_per_kind
    (flight : Flight.t) (hotel : Hotel.t) (car : Car.t) (activity : Activity.t)
    (v : PricingVisitor.t) :
  let hotelPrice :=
    numDays (Hotel.checkInDate hotel) (Hotel.checkOutDate hotel) * Hotel.roomRate hotel in
  let carPrice :=
    numDays (Car.pickupDate car) (Car.dropOffDate car) * Car.dailyRate car in
  (TypeSwitch.calculatePrice (AFlight flight) = Flight.price flight
   /\ TypeSwitch.calculatePrice (AHotel hotel) = hotelPrice
   /\ TypeSwitch.calculatePrice (ACar car) = carPrice
   /\ TypeSwitch.calculatePrice (AnActivity activity) = Activity.cost activity)
  /\ (TypeSwitch.calculatePriceOfValue (AnInstance (AFlight flight)) = Return (Flight.price flight)
      /\ TypeSwitch.calculatePriceOfValue (AnInstance (AHotel hotel)) = Return hotelPrice
      /\ TypeSwitch.calculatePriceOfValue (AnInstance (ACar car)) = Return carPrice
      /\ TypeSwitch.calculatePriceOfValue (AnInstance (AnActivity activity))
         = Return (Activity.cost activity))
  /\ (PricingVisitor.price (visitFlight flight v) = PricingVisitor.price v + Flight.price flight
      /\ PricingVisitor.price (visitHotel hotel v) = PricingVisitor.price v + hotelPrice
      /\ PricingVisitor.price (visitCar car v) = PricingVisitor.price v + carPrice
      /\ PricingVisitor.price (visitActivity activity v)
         = PricingVisitor.price v + Activity.cost activity).
Proof. cbv zeta. repeat split. Qed.

(** C5. For every [VacationPackage], [getItinerary()] returns exactly the
    header ["Itinerary\n========="] followed, for every contained product in
    insertion order, by the two characters ["\n\n"] and then that product's
    itinerary block, and nothing else; this holds in both programs. *)
Theorem getItinerary_is_header_then_sections (ps : list Product) :
  Method.result TypeSwitch.VacationPackage.getItinerary (TypeSwitch.VacationPackage.make ps)
  = itineraryText (map TypeSwitch.getItinerary ps)
  /\ Method.result Visitor.VacationPackage.getItinerary (Visitor.VacationPackage.make ps)
     = itineraryText (map TypeSwitch.getItinerary ps)
  /\ header = "Itinerary
========="%string
  /\ blankLine = "

"%string.
Proof.
  split; [apply DispatchFacts.typeSwitch_itinerary|].
  split; [apply DispatchFacts.visitor_itinerary|].
  split; reflexivity.
Qed.

(** C7. In visitor.ts, for every visitor [v], [accept] of a Flight is the
    call [v.visitFlight(this)], of a Hotel [v.visitHotel(this)], of a Car
    [v.visitCar(this)], of an Activity [v.visitActivity(this)]; a visitor
    that records the calls it receives sees exactly that one call and no
    other. *)
Theorem accept_calls_the_matching_method
    (flight : Flight.t) (hotel : Hotel.t) (car : Car.t) (activity : Activity.t) :
  (forall (V : Type) (visitor : ProductVisitor V) (v : V),
     accept (AFlight flight) v = visitFlight flight v
     /\ accept (AHotel hotel) v = visitHotel hotel v
     /\ accept (ACar car) v = visitCar car v
     /\ accept (AnActivity activity) v = visitActivity activity v)
  /\ (forall calls : list Call,
        accept (AFlight flight) calls = calls ++ [CallVisitFlight flight]
        /\ accept (AHotel hotel) calls = calls ++ [CallVisitHotel hotel]
        /\ accept (ACar car) calls = calls ++ [CallVisitCar car]
        /\ accept (AnActivity activity) calls = calls ++ [CallVisitActivity activity]).
Proof. split; intros; repeat split. Qed.


(** C9. [add(product)] appends: the products after the call are the
    products before it followed by the new product, also when the product
    is already there; [calculatePrice()] and [getItinerary()] leave the
    package as it was, so a second call returns what the first returned.
    This holds in both programs. *)
Theorem add_appends_and_queries_change_nothing
    (ps : list Product) (product : Product) :
  let pkgT := TypeSwitch.VacationPackage.make ps in
  let pkgV := Visitor.VacationPackage.make ps in
  (Method.after (TypeSwitch.VacationPackage.add product) pkgT
   = TypeSwitch.VacationPackage.make (ps ++ [product])
   /\ Method.after (Visitor.VacationPackage.add product) pkgV
      = Visitor.VacationPackage.make (ps ++ [product]))
  /\ (Method.after (TypeSwitch.VacationPackage.add product ;;
                    TypeSwitch.VacationPackage.add product) pkgT
      = TypeSwitch.VacationPackage.make (ps ++ [product; product])
      /\ Method.after (Visitor.VacationPackage.add product ;;
                       Visitor.VacationPackage.add product) pkgV
         = Visitor.VacationPackage.make (ps ++ [product; product]))
  /\ (Method.after TypeSwitch.VacationPackage.calculatePrice pkgT = pkgT
      /\ Method.after TypeSwitch.VacationPackage.getItinerary pkgT = pkgT
      /\ Method.after Visitor.VacationPackage.calculatePrice pkgV = pkgV
      /\ Method.after Visitor.VacationPackage.getItinerary pkgV = pkgV)
  /\ (Method.result (first <- TypeSwitch.VacationPackage.calculatePrice ;;
                     second <- TypeSwitch.VacationPackage.calculatePrice ;;
                     Method.ret (first, second)) pkgT
      = (Method.result TypeSwitch.VacationPackage.calculatePrice pkgT,
         Method.result TypeSwitch.VacationPackage.calculatePrice pkgT)
      /\ Method.result (first <- TypeSwitch.VacationPackage.getItinerary ;;
                        second <- TypeSwitch.VacationPackage.getItinerary ;;
                        Method.ret (first, second)) pkgT
         = (Method.result TypeSwitch.VacationPackage.getItinerary pkgT,
            Method.result TypeSwitch.VacationPackage.getItinerary pkgT)
      /\ Method.result (first <- Visitor.VacationPackage.calculatePrice ;;
                        second <- Visitor.VacationPackage.calculatePrice ;;
                        Method.ret (first, second)) pkgV
         = (Method.result Visitor.VacationPackage.calculatePrice pkgV,
            Method.result Visitor.VacationPackage.calculatePrice pkgV)
      /\ Method.result (first <- Visitor.VacationPackage.getItinerary ;;
                        second <- Visitor.VacationPackage.getItinerary ;;
                        Method.ret (first, second)) pkgV
         = (Method.result Visitor.VacationPackage.getItinerary pkgV,
            Method.result Visitor.VacationPackage.getItinerary pkgV)).
Proof.
  cbv zeta. split; [split; reflexivity|].
  split; [split; cbn; unfold push; now rewrite <- app_assoc|].
  split; repeat split; reflexivity.
Qed.

(** C10. For an empty [VacationPackage] (no [add] call), [calculatePrice()]
    returns exactly [0] and [getItinerary()] returns exactly the header
    string ["Itinerary\n========="], with no separator after it, in both
    programs. *)
Theorem empty_package :
  (Method.result TypeSwitch.VacationPackage.calculatePrice TypeSwitch.VacationPackage.new = 0
   /\ Method.result Visitor.VacationPackage.calculatePrice Visitor.VacationPackage.new = 0)
  /\ (Method.result TypeSwitch.VacationPackage.getItinerary TypeSwitch.VacationPackage.new
      = "Itinerary
========="%string
      /\ Method.result Visitor.VacationPackage.getItinerary Visitor.VacationPackage.new
         = "Itinerary
========="%string).
Proof. repeat split. Qed.

End Claims.

(** ** The test script *)

Section TestScript.

Context `{Host}.

(** C6, amended.  For the package of the test script, [calculatePrice()]
    returns exactly 1900 (= 300 + 300 + 2 * 400 + 2 * 150 + 200) in both
    programs, the two dates being two days apart, and [getItinerary()]
    returns the header followed by the five sections in insertion order,
    each in the layout of its kind. *)
Theorem test_script_results :
  (getTime startDate = 1577664000000%float
   /\ getTime endDate = 1577836800000%float
   /\ numDays startDate endDate = 2%float)
  /\ (TypeSwitchTest.price = 1900%float /\ VisitorTest.price = 1900%float)
  /\ (TypeSwitchTest.itinerary = expectedItinerary
      /\ VisitorTest.itinerary = expectedItinerary)
  /\ (TypeSwitch.VacationPackage.products TypeSwitchTest.pkg = testProducts
      /\ Visitor.VacationPackage.products VisitorTest.pkg = testProducts).
Proof.
  split; [repeat split|]. split; [split; reflexivity|].
  split; [|split; reflexivity].
  unfold TypeSwitchTest.itinerary, VisitorTest.itinerary.
  rewrite DispatchFacts.typeSwitch_itinerary, DispatchFacts.visitor_itinerary.
  change (TypeSwitch.VacationPackage.products TypeSwitchTest.pkg) with testProducts.
  change (Visitor.VacationPackage.products VisitorTest.pkg) with testProducts.
  assert (E : itineraryText (map TypeSwitch.getItinerary testProducts) = expectedItinerary).
  { cbv [itineraryText sections map testProducts TypeSwitch.getItinerary
         TypeSwitch.getItineraryFlight TypeSwitch.getItineraryHotel
         TypeSwitch.getItineraryCar TypeSwitch.getItineraryActivity
         Flight.flightNumber Flight.origin Flight.destination
         Flight.departureTime Flight.price
         Hotel.id Hotel.checkInDate Hotel.checkOutDate Hotel.roomRate
         Car.vehicleType Car.pickupDate Car.dropOffDate Car.dailyRate
         Activity.id Activity.startTime Activity.cost].
    rewrite RuntimeFacts.append_empty_r. right_nested. reflexivity. }
  now rewrite E.
Qed.

End TestScript.

(** The total of the test script is not 2100. *)
Lemma test_script_price_is_not_2100 :
  TypeSwitchTest.price <> 2100%float
  /\ VisitorTest.price <> 2100%float
  /\ strictEquals TypeSwitchTest.price 2100 = false
  /\ strictEquals VisitorTest.price 2100 = false.
Proof.
  repeat split; try reflexivity;
    intros E; apply (f_equal (fun x => Leibniz.eqb x 2100%float)) in E;
    vm_compute in E; discriminate E.
Qed.


(** ** The total price and the order of insertion *)

Module TotalFacts.

Lemma zero_is_Z2number : 0%float = Z2number 0.
Proof. reflexivity. Qed.

Lemma sumFromZero_integers (zs : list Z) :
  (sumAbs zs < 2 ^ 53)%Z ->
  sumFromZero (map Z2number zs) = Z2number (sumZ zs).
Proof.
  intros Hb. unfold sumFromZero. rewrite zero_is_Z2number.
  rewrite IntegerFacts.fold_left_Z2number by (cbn [Z.abs]; lia).
  reflexivity.
Qed.

Lemma sumFromZero_permutation (prices prices' : list number) (zs : list Z) :
  Permutation prices prices' ->
  prices = map Z2number zs ->
  (sumAbs zs < 2 ^ 53)%Z ->
  sumFromZero prices' = sumFromZero prices
  /\ sumFromZero prices = Z2number (sumZ zs).
Proof.
  intros Hperm -> Hb.
  apply Permutation_sym, Permutation_map_inv in Hperm.
  destruct Hperm as (zs' & -> & Hzs).
  rewrite !sumFromZero_integers;
    [ | exact Hb | now rewrite <- (IntegerFacts.sumAbs_Permutation Hzs) ].
  now rewrite (IntegerFacts.sumZ_Permutation Hzs).
Qed.

End TotalFacts.

(** C4, amended.  For every [VacationPackage], [calculatePrice()] is the
    binary64 sum of the prices of its products, added from left to right in
    insertion order starting from [0], in both programs.  The total is the
    same for every order of insertion when every product price is an
    integer and the magnitudes of the prices add up to less than [2^53]
    (then no addition rounds, and the total is the sum of the integers). *)
Theorem total_price_is_the_left_to_right_sum (ps : list Product) :
  (Method.result TypeSwitch.VacationPackage.calculatePrice (TypeSwitch.VacationPackage.make ps)
   = sumFromZero (map TypeSwitch.calculatePrice ps)
   /\ Method.result Visitor.VacationPackage.calculatePrice (Visitor.VacationPackage.make ps)
      = sumFromZero (map TypeSwitch.calculatePrice ps))
  /\ (forall (ps' : list Product) (zs : list Z),
        Permutation ps ps' ->
        map TypeSwitch.calculatePrice ps = map Z2number zs ->
        (sumAbs zs < 2 ^ 53)%Z ->
        Method.result TypeSwitch.VacationPackage.calculatePrice (TypeSwitch.VacationPackage.make ps')
        = Method.result TypeSwitch.VacationPackage.calculatePrice (TypeSwitch.VacationPackage.make ps)
        /\ Method.result Visitor.VacationPackage.calculatePrice (Visitor.VacationPackage.make ps')
           = Method.result Visitor.VacationPackage.calculatePrice (Visitor.VacationPackage.make ps)
        /\ Method.result TypeSwitch.VacationPackage.calculatePrice (TypeSwitch.VacationPackage.make ps)
           = Z2number (sumZ zs)).
Proof.
  split; [split; [apply DispatchFacts.typeSwitch_price | apply DispatchFacts.visitor_price]|].
  intros ps' zs Hperm Hint Hb.
  rewrite !DispatchFacts.typeSwitch_price, !DispatchFacts.visitor_price.
  cbn [TypeSwitch.VacationPackage.products Visitor.VacationPackage.products].
  destruct (@TotalFacts.sumFromZero_permutation _ _ zs
              (Permutation_map TypeSwitch.calculatePrice Hperm) Hint Hb) as [E1 E2].
  now rewrite E1, E2.
Qed.

Lemma total_price_is_the_left_to_right_sum_witness :
  Permutation testProducts (rev testProducts)
  /\ map TypeSwitch.calculatePrice testProducts = map Z2number [300; 300; 800; 300; 200]%Z
  /\ (sumAbs [300; 300; 800; 300; 200] < 2 ^ 53)%Z
  /\ Method.result TypeSwitch.VacationPackage.calculatePrice
       (TypeSwitch.VacationPackage.make (rev testProducts))
     = Method.result TypeSwitch.VacationPackage.calculatePrice
         (TypeSwitch.VacationPackage.make testProducts).
Proof.
  split; [apply Permutation_rev|]. split; [reflexivity|]. split; [reflexivity|].
  apply (proj2 (total_price_is_the_left_to_right_sum testProducts)
               (rev testProducts) [300; 300; 800; 300; 200]%Z).
  - apply Permutation_rev.
  - reflexivity.
  - reflexivity.
Defined.

(** Three flights at 0.1, 0.2 and 0.3 cost 0.6000000000000001 in this
    order and 0.6 in the reverse order. *)
Lemma total_price_depends_on_insertion_order :
  Permutation cheapFlights (rev cheapFlights)
  /\ Method.result TypeSwitch.VacationPackage.calculatePrice
       (TypeSwitch.VacationPackage.make cheapFlights)
     <> Method.result TypeSwitch.VacationPackage.calculatePrice
          (TypeSwitch.VacationPackage.make (rev cheapFlights))
  /\ Method.result Visitor.VacationPackage.calculatePrice
       (Visitor.VacationPackage.make cheapFlights)
     <> Method.result Visitor.VacationPackage.calculatePrice
          (Visitor.VacationPackage.make (rev cheapFlights))
  /\ strictEquals
       (Method.result TypeSwitch.VacationPackage.calculatePrice
          (TypeSwitch.VacationPackage.make cheapFlights))
       (Method.result TypeSwitch.VacationPackage.calculatePrice
          (TypeSwitch.VacationPackage.make (rev cheapFlights))) = false.
Proof.
  split; [apply Permutation_rev|].
  repeat split; try reflexivity;
    intros E;
    apply (f_equal (fun x =>
             Leibniz.eqb x (Method.result TypeSwitch.VacationPackage.calculatePrice
                              (TypeSwitch.VacationPackage.make (rev cheapFlights))))) in E;
    vm_compute in E; discriminate E.
Qed.

(** ** Exact subtraction, multiplication and division of integers *)

Module ExactFacts.

Local Open Scope Z_scope.

(** A subtraction is the addition of the negated operand. *)
Lemma SFsub_as_add (x y : spec_float) : SF64sub x y = SF64add x (SFopp y).
Proof.
  destruct x as [sx|sx| |sx mx ex], y as [sy|sy| |sy my ey];
    try (destruct sx, sy; reflexivity);
    try (destruct sx; reflexivity);
    try (destruct sy; reflexivity);
    reflexivity.
Qed.

Lemma SFopp_SFofZ z : z <> 0 -> SFopp (SFofZ z) = SFofZ (- z).
Proof.
  intros Hz. unfold SFofZ. now rewrite NumberFacts.binary_normalize_opp.
Qed.

Lemma SF64sub_SFofZ a b :
  Z.abs a < 2 ^ 53 -> Z.abs b < 2 ^ 53 -> Z.abs (a - b) < 2 ^ 53 ->
  SF64sub (SFofZ a) (SFofZ b) = SFofZ (a - b).
Proof.
  intros Ha Hb Hab. rewrite SFsub_as_add.
  destruct (Z.eq_dec b 0) as [->|Nb].
  - rewrite Z.sub_0_r.
    destruct (Z.eq_dec a 0) as [->|Na]; [reflexivity|].
    now rewrite (IntegerFacts.SFofZ_normal_form Na Ha).
  - rewrite (SFopp_SFofZ Nb).
    apply IntegerFacts.SF64add_SFofZ; [exact Ha | lia | now replace (a + - b) with (a - b) by lia].
Qed.

Lemma Z2number_sub a b :
  Z.abs a < 2 ^ 53 -> Z.abs b < 2 ^ 53 -> Z.abs (a - b) < 2 ^ 53 ->
  (Z2number a - Z2number b)%float = Z2number (a - b).
Proof.
  intros Ha Hb Hab.
  assert (H63 : 2 ^ 53 < 2 ^ 63) by reflexivity.
  apply Prim2SF_inj. rewrite sub_spec.
  rewrite !IntegerFacts.Prim2SF_Z2number by lia.
  now apply SF64sub_SFofZ.
Qed.

(** The number of binary digits of a positive number. *)
Lemma digits_upper p : Zpos p < 2 ^ Zpos (digits2_pos p).
Proof.
  rewrite IntegerFacts.digits2_size.
  pose proof (Pos.size_gt p) as Hs. apply Pos2Z.pos_lt_pos in Hs.
  now rewrite Pos2Z.inj_pow in Hs.
Qed.

Lemma digits_lower p : 2 ^ (Zpos (digits2_pos p) - 1) <= Zpos p.
Proof.
  rewrite IntegerFacts.digits2_size.
  pose proof (Pos.size_le p) as Hs. apply Pos2Z.pos_le_pos in Hs.
  rewrite Pos2Z.inj_pow in Hs. rewrite (Pos2Z.inj_xO p) in Hs.
  replace (Zpos (Pos.size p)) with (Z.succ (Zpos (Pos.size p) - 1)) in Hs by lia.
  rewrite Z.pow_succ_r in Hs by lia. lia.
Qed.

Lemma digits_le_of_lt p n : Zpos p < 2 ^ n -> Zpos (digits2_pos p) <= n.
Proof.
  intros Hp.
  destruct (Z_le_gt_dec (Zpos (digits2_pos p)) n) as [Hle|Hgt]; [exact Hle|exfalso].
  pose proof (digits_lower p) as Hl.
  destruct (Z_lt_le_dec n 0) as [Hn|Hn].
  - rewrite Z.pow_neg_r in Hp by exact Hn. lia.
  - assert (2 ^ n <= 2 ^ (Zpos (digits2_pos p) - 1)) by (apply Z.pow_le_mono_r; lia).
    lia.
Qed.

Lemma digits_mono p q : Zpos p <= Zpos q -> Zpos (digits2_pos p) <= Zpos (digits2_pos q).
Proof.
  intros Hpq. apply digits_le_of_lt.
  pose proof (digits_upper q). lia.
Qed.

Lemma fexp_small d : -1021 <= d -> fexp prec emax d = d - 53.
Proof. unfold fexp, SpecFloat.emin, prec, emax. lia. Qed.

Lemma Zpos_to_pos_abs z : z <> 0 -> Zpos (Z.to_pos (Z.abs z)) = Z.abs z.
Proof. intros Hz. apply Z2Pos.id. lia. Qed.

Lemma sign_mul a b : a <> 0 -> b <> 0 -> xorb (a <? 0) (b <? 0) = (a * b <? 0).
Proof. destruct a, b; intros; try reflexivity; congruence. Qed.

(** The product of two integers is exact when it stays below [2^53]. *)
Lemma SF64mul_SFofZ a b :
  a <> 0 -> b <> 0 -> Z.abs (a * b) < 2 ^ 53 ->
  SF64mul (SFofZ a) (SFofZ b) = SFofZ (a * b).
Proof.
  intros Na Nb Hab.
  assert (Nab : a * b <> 0) by lia.
  assert (Ha : Z.abs a < 2 ^ 53) by (rewrite Z.abs_mul in Hab; nia).
  assert (Hb : Z.abs b < 2 ^ 53) by (rewrite Z.abs_mul in Hab; nia).
  rewrite (IntegerFacts.SFofZ_normal_form Na Ha), (IntegerFacts.SFofZ_normal_form Nb Hb),
    (IntegerFacts.SFofZ_normal_form Nab Hab).
  pose proof (Zpos_to_pos_abs Na) as Pa. pose proof (Zpos_to_pos_abs Nb) as Pb.
  pose proof (Zpos_to_pos_abs Nab) as Pab.
  set (pa := Z.to_pos (Z.abs a)) in *. set (pb := Z.to_pos (Z.abs b)) in *.
  set (p := Z.to_pos (Z.abs (a * b))) in *.
  assert (Da : Zpos (digits2_pos pa) <= 53) by (apply IntegerFacts.digits_bound; lia).
  assert (Db : Zpos (digits2_pos pb) <= 53) by (apply IntegerFacts.digits_bound; lia).
  assert (Dp : Zpos (digits2_pos p) <= 53) by (apply IntegerFacts.digits_bound; lia).
  assert (Dap : Zpos (digits2_pos pa) <= Zpos (digits2_pos p)).
  { apply digits_mono. rewrite Pa, Pab, Z.abs_mul. nia. }
  set (da := Zpos (digits2_pos pa)) in *. set (db := Zpos (digits2_pos pb)) in *.
  set (dp := Zpos (digits2_pos p)) in *.
  unfold SF64mul, SFmul. rewrite (sign_mul Na Nb).
  set (n := dp + 53 - da - db).
  assert (Hn : 0 <= n) by (subst n; lia).
  replace (Zpos (shl pa (53 - da) * shl pb (53 - db)))
    with (Zpos (shl p (53 - dp + n))).
  - replace (da - 53 + (db - 53)) with (dp - 53 - n) by (subst n; lia).
    apply IntegerFacts.binary_round_aux_exact; [exact Dp | exact Hn].
  - rewrite Pos2Z.inj_mul, !IntegerFacts.Zpos_shl by lia.
    rewrite Pa, Pb, Pab, Z.abs_mul.
    assert (E : 2 ^ (53 - da) * 2 ^ (53 - db) = 2 ^ (53 - dp + n)).
    { rewrite <- Z.pow_add_r by lia. f_equal. subst n. lia. }
    rewrite <- E. ring.
Qed.

Lemma div_eucl_exact q b : 0 < b -> Z.div_eucl (q * b) b = (q, 0).
Proof.
  intros Hb.
  assert (E : Z.div_eucl (q * b) b = ((q * b) / b, (q * b) mod b)).
  { unfold Z.div, Z.modulo. now destruct (Z.div_eucl (q * b) b). }
  rewrite E, Z.div_mul, Z.mod_mul by lia. reflexivity.
Qed.

Lemma new_location_zero nb : new_location nb 0 = loc_Exact.
Proof. unfold new_location. destruct (Z.even nb); reflexivity. Qed.

(** The core of the division when the quotient of the mantissas, scaled
    by [2^53], is an integer. *)
Lemma SFdiv_core_exact m1 e1 m2 e2 q :
  Zpos (digits2_pos m1) = 53 -> Zpos (digits2_pos m2) = 53 ->
  -1021 <= e1 - e2 ->
  Zpos m1 * 2 ^ 53 = q * Zpos m2 ->
  SFdiv_core_binary prec emax (Zpos m1) e1 (Zpos m2) e2
  = (q, e1 - e2 - 53, loc_Exact).
Proof.
  intros D1 D2 He Hq. unfold SFdiv_core_binary. cbn [Zdigits2].
  rewrite D1, D2.
  replace (53 + e1 - (53 + e2)) with (e1 - e2) by lia.
  rewrite fexp_small by exact He.
  rewrite Z.min_l by lia.
  replace (e1 - e2 - (e1 - e2 - 53)) with 53 by lia.
  cbv iota. rewrite Z.shiftl_mul_pow2 by lia. rewrite Hq.
  rewrite div_eucl_exact by lia. now rewrite new_location_zero.
Qed.

(** Dividing a multiple by a positive divisor gives the exact quotient. *)
Lemma SF64div_SFofZ k c :
  k <> 0 -> 0 < c -> Z.abs (k * c) < 2 ^ 53 ->
  SF64div (SFofZ (k * c)) (SFofZ c) = SFofZ k.
Proof.
  intros Nk Hc Hkc.
  assert (Nc : c <> 0) by lia. assert (Nkc : k * c <> 0) by lia.
  assert (Hk : Z.abs k < 2 ^ 53) by (rewrite Z.abs_mul in Hkc; nia).
  assert (Hc' : Z.abs c < 2 ^ 53) by (rewrite Z.abs_mul in Hkc; nia).
  rewrite (IntegerFacts.SFofZ_normal_form Nkc Hkc), (IntegerFacts.SFofZ_normal_form Nc Hc'),
    (IntegerFacts.SFofZ_normal_form Nk Hk).
  pose proof (Zpos_to_pos_abs Nk) as Pk. pose proof (Zpos_to_pos_abs Nc) as Pc.
  pose proof (Zpos_to_pos_abs Nkc) as Pkc.
  set (pk := Z.to_pos (Z.abs k)) in *. set (pc := Z.to_pos (Z.abs c)) in *.
  set (px := Z.to_pos (Z.abs (k * c))) in *.
  assert (Dk : Zpos (digits2_pos pk) <= 53) by (apply IntegerFacts.digits_bound; lia).
  assert (Dc : Zpos (digits2_pos pc) <= 53) by (apply IntegerFacts.digits_bound; lia).
  assert (Dx : Zpos (digits2_pos px) <= 53) by (apply IntegerFacts.digits_bound; lia).
  assert (Dxkc : Zpos (digits2_pos px) <= Zpos (digits2_pos pk) + Zpos (digits2_pos pc)).
  { apply digits_le_of_lt. rewrite Pkc, Z.abs_mul, <- Pk, <- Pc.
    pose proof (digits_upper pk). pose proof (digits_upper pc).
    rewrite Z.pow_add_r by lia. nia. }
  assert (Dcx : Zpos (digits2_pos pc) <= Zpos (digits2_pos px)).
  { apply digits_mono. rewrite Pc, Pkc, Z.abs_mul. nia. }
  set (dk := Zpos (digits2_pos pk)) in *. set (dc := Zpos (digits2_pos pc)) in *.
  set (dx := Zpos (digits2_pos px)) in *.
  unfold SF64div, SFdiv.
  rewrite (@SFdiv_core_exact _ _ _ _ (Zpos (shl pk (53 + dc - dx)))).
  - replace (xorb (k * c <? 0) (c <? 0)) with (k <? 0).
    2:{ replace (c <? 0) with false by (symmetry; apply Z.ltb_ge; lia).
        rewrite xorb_false_r. destruct k as [|k'|k'], c as [|c'|c']; try reflexivity; lia. }
    set (n := dk + dc - dx).
    replace (53 + dc - dx) with (53 - dk + n) by (subst n; lia).
    replace (dx - 53 - (dc - 53) - 53) with (dk - 53 - n) by (subst n; lia).
    apply IntegerFacts.binary_round_aux_exact; [exact Dk | subst n; lia].
  - rewrite IntegerFacts.digits_shl by lia. fold dx. lia.
  - rewrite IntegerFacts.digits_shl by lia. fold dc. lia.
  - lia.
  - rewrite !IntegerFacts.Zpos_shl by lia.
    rewrite Pk, Pc, Pkc, Z.abs_mul.
    assert (E : 2 ^ (53 - dx) * 2 ^ 53 = 2 ^ (53 + dc - dx) * 2 ^ (53 - dc)).
    { rewrite <- !Z.pow_add_r by lia. f_equal. lia. }
    rewrite <- Z.mul_assoc, E. ring.
Qed.

End ExactFacts.

(** ** Further properties of the helper functions *)

Module NaNFacts.

Local Open Scope float_scope.

Lemma add_nan_l (x : number) : nan + x = nan.
Proof. apply Prim2SF_inj. rewrite add_spec. reflexivity. Qed.

Lemma add_nan_r (x : number) : x + nan = nan.
Proof.
  apply Prim2SF_inj. rewrite add_spec.
  change (Prim2SF nan) with S754_nan. now destruct (Prim2SF x) as [[|]|[|]| |].
Qed.

Lemma sub_nan_l (x : number) : nan - x = nan.
Proof. apply Prim2SF_inj. rewrite sub_spec. reflexivity. Qed.

Lemma sub_nan_r (x : number) : x - nan = nan.
Proof.
  apply Prim2SF_inj. rewrite sub_spec.
  change (Prim2SF nan) with S754_nan. now destruct (Prim2SF x) as [[|]|[|]| |].
Qed.

Lemma div_nan_l (x : number) : nan / x = nan.
Proof. apply Prim2SF_inj. rewrite div_spec. reflexivity. Qed.

Lemma mul_nan_l (x : number) : nan * x = nan.
Proof. apply Prim2SF_inj. rewrite mul_spec. reflexivity. Qed.

Lemma fold_add_nan (prices : list number) :
  fold_left (fun accumulator price => accumulator + price) prices nan = nan.
Proof.
  induction prices as [|x prices IH]; cbn [fold_left]; [reflexivity|].
  now rewrite add_nan_l.
Qed.

Lemma sumFromZero_nan (prices : list number) :
  In nan prices -> sumFromZero prices = nan.
Proof.
  intros Hin. apply in_split in Hin. destruct Hin as (l1 & l2 & ->).
  unfold sumFromZero. rewrite fold_left_app. cbn [fold_left].
  rewrite add_nan_r. apply fold_add_nan.
Qed.

End NaNFacts.

Module WholeDayFacts.

Local Open Scope Z_scope.

Lemma millisPerDay_is_integer : millisPerDay = Z2number 86400000.
Proof. reflexivity. Qed.

Lemma div_millisPerDay_exact k :
  Z.abs (k * 86400000) < 2 ^ 53 ->
  (Z2number (k * 86400000) / millisPerDay)%float = Z2number k.
Proof.
  intros Hk.
  destruct (Z.eq_dec k 0) as [->|Nk]; [reflexivity|].
  assert (H63 : 2 ^ 53 < 2 ^ 63) by reflexivity.
  rewrite millisPerDay_is_integer.
  apply Prim2SF_inj. rewrite div_spec.
  rewrite !IntegerFacts.Prim2SF_Z2number by lia.
  apply ExactFacts.SF64div_SFofZ; [exact Nk | lia | exact Hk].
Qed.

Lemma numDays_of_integers t k :
  Z.abs t < 2 ^ 53 -> Z.abs (t + k * 86400000) < 2 ^ 53 ->
  Z.abs (k * 86400000) < 2 ^ 53 ->
  numDays (mkDate (Z2number t)) (mkDate (Z2number (t + k * 86400000))) = Z2number k.
Proof.
  intros Ht Htk Hk. unfold numDays. cbn [getTime].
  rewrite ExactFacts.Z2number_sub by (try assumption; now replace (t + k * 86400000 - t) with (k * 86400000) by lia).
  replace (t + k * 86400000 - t) with (k * 86400000) by lia.
  now apply div_millisPerDay_exact.
Qed.

Lemma Z2number_mul a b :
  a * b <> 0 \/ (0 <= a /\ 0 <= b) ->
  Z.abs a < 2 ^ 53 -> Z.abs b < 2 ^ 53 -> Z.abs (a * b) < 2 ^ 53 ->
  (Z2number a * Z2number b)%float = Z2number (a * b).
Proof.
  intros Hsign Ha Hb Hab.
  assert (H63 : 2 ^ 53 < 2 ^ 63) by reflexivity.
  apply Prim2SF_inj. rewrite mul_spec.
  rewrite !IntegerFacts.Prim2SF_Z2number by lia.
  destruct (Z.eq_dec a 0) as [->|Na].
  { rewrite Z.mul_0_l. destruct (Z.eq_dec b 0) as [->|Nb]; [reflexivity|].
    rewrite (IntegerFacts.SFofZ_normal_form Nb Hb).
    replace (b <? 0) with false by (symmetry; apply Z.ltb_ge; lia). reflexivity. }
  destruct (Z.eq_dec b 0) as [->|Nb].
  { rewrite Z.mul_0_r. rewrite (IntegerFacts.SFofZ_normal_form Na Ha).
    replace (a <? 0) with false by (symmetry; apply Z.ltb_ge; lia). reflexivity. }
  now apply ExactFacts.SF64mul_SFofZ.
Qed.

End WholeDayFacts.

(** Methods after [add]. *)
Module AddFacts.

Lemma prefix_append (a b : string) : String.prefix a (a +s b) = true.
Proof.
  induction a as [|ch a IH]; cbn.
  - now destruct b.
  - destruct (ascii_dec ch ch) as [_|N]; [exact IH | contradiction].
Qed.

Lemma sections_snoc (blocks : list string) (block : string) :
  sections (blocks ++ [block]) = sections blocks +s (blankLine +s block).
Proof.
  induction blocks as [|b blocks IH]; cbn [app sections].
  - now rewrite RuntimeFacts.append_empty_r.
  - rewrite IH. now right_nested.
Qed.

Lemma itineraryText_snoc (blocks : list string) (block : string) :
  itineraryText (blocks ++ [block]) = itineraryText blocks +s (blankLine +s block).
Proof.
  unfold itineraryText. rewrite sections_snoc.
  now rewrite <- RuntimeFacts.append_assoc.
Qed.

End AddFacts.

Section MoreProperties.

Import Visitor.
Context `{Host}.

Local Open Scope float_scope.

(** X1. Adding a product raises the total by that product's price: in
    both programs, [calculatePrice()] after [add(product)] is
    [calculatePrice()] before it plus [calculatePrice(product)]. *)
Theorem add_then_calculatePrice (ps : list Product) (product : Product) :
  Method.result TypeSwitch.VacationPackage.calculatePrice
    (Method.after (TypeSwitch.VacationPackage.add product) (TypeSwitch.VacationPackage.make ps))
  = Method.result TypeSwitch.VacationPackage.calculatePrice (TypeSwitch.VacationPackage.make ps)
    + TypeSwitch.calculatePrice product
  /\ Method.result Visitor.VacationPackage.calculatePrice
       (Method.after (Visitor.VacationPackage.add product) (Visitor.VacationPackage.make ps))
     = Method.result Visitor.VacationPackage.calculatePrice (Visitor.VacationPackage.make ps)
       + TypeSwitch.calculatePrice product.
Proof.
  rewrite !DispatchFacts.typeSwitch_price, !DispatchFacts.visitor_price.
  cbn [Method.after TypeSwitch.VacationPackage.add Visitor.VacationPackage.add
       Method.bind Method.get Method.put snd
       TypeSwitch.VacationPackage.products Visitor.VacationPackage.products].
  unfold push, sumFromZero. rewrite !map_app, !fold_left_app. split; reflexivity.
Qed.

(** X2. Adding a product only appends to the itinerary: in both programs,
    [getItinerary()] after [add(product)] is [getItinerary()] before it
    followed by the blank line and the block of the product, so the old
    text is a prefix of the new one. *)
Theorem add_then_getItinerary (ps : list Product) (product : Product) :
  let oldT := Method.result TypeSwitch.VacationPackage.getItinerary
                (TypeSwitch.VacationPackage.make ps) in
  let newT := Method.result TypeSwitch.VacationPackage.getItinerary
                (Method.after (TypeSwitch.VacationPackage.add product)
                              (TypeSwitch.VacationPackage.make ps)) in
  let oldV := Method.result Visitor.VacationPackage.getItinerary
                (Visitor.VacationPackage.make ps) in
  let newV := Method.result Visitor.VacationPackage.getItinerary
                (Method.after (Visitor.VacationPackage.add product)
                              (Visitor.VacationPackage.make ps)) in
  newT = oldT +s (blankLine +s TypeSwitch.getItinerary product)
  /\ newV = oldV +s (blankLine +s TypeSwitch.getItinerary product)
  /\ String.prefix oldT newT = true
  /\ String.prefix oldV newV = true.
Proof.
  cbv zeta.
  rewrite !DispatchFacts.typeSwitch_itinerary, !DispatchFacts.visitor_itinerary.
  cbn [Method.after TypeSwitch.VacationPackage.add Visitor.VacationPackage.add
       Method.bind Method.get Method.put snd
       TypeSwitch.VacationPackage.products Visitor.VacationPackage.products].
  unfold push.
  rewrite !map_app. cbn [map]. rewrite !AddFacts.itineraryText_snoc.
  split; [reflexivity|]. split; [reflexivity|].
  split; apply AddFacts.prefix_append.
Qed.

End MoreProperties.

Section WholeDaysAndInvalidDates.

Import Visitor.

(** X3. Two dates a whole number [k] of days apart, given by integer time
    values, are exactly [k] days apart for [numDays] (no rounding, [k]
    negative when the end precedes the start), as long as the time values
    and their difference are below [2^53] in magnitude. *)
Theorem numDays_whole_days (t k : Z)
    (Ht : (Z.abs t < 2 ^ 53)%Z)
    (Htk : (Z.abs (t + k * 86400000) < 2 ^ 53)%Z)
    (Hk : (Z.abs (k * 86400000) < 2 ^ 53)%Z) :
  numDays (mkDate (Z2number t)) (mkDate (Z2number (t + k * 86400000))) = Z2number k.
Proof. now apply WholeDayFacts.numDays_of_integers. Qed.

Lemma numDays_whole_days_witness :
  (Z.abs 1577836800000 < 2 ^ 53)%Z
  /\ (Z.abs (1577836800000 + -2 * 86400000) < 2 ^ 53)%Z
  /\ (Z.abs (-2 * 86400000) < 2 ^ 53)%Z
  /\ numDays (mkDate (Z2number 1577836800000))
             (mkDate (Z2number (1577836800000 + -2 * 86400000))) = Z2number (-2).
Proof.
  split; [reflexivity|]. split; [reflexivity|]. split; [reflexivity|].
  apply (@numDays_whole_days 1577836800000 (-2)); reflexivity.
Defined.



(** X5. A Hotel or a Car whose two dates are a whole number [k] of days
    apart and whose rate is an integer [r] costs exactly [k * r], in both
    programs, when the product is below [2^53] in magnitude (and, should
    the product be zero, neither factor is negative). *)
Theorem whole_day_price_is_exact (name : string) (t k r : Z)
    (Ht : (Z.abs t < 2 ^ 53)%Z)
    (Htk : (Z.abs (t + k * 86400000) < 2 ^ 53)%Z)
    (Hk : (Z.abs (k * 86400000) < 2 ^ 53)%Z)
    (Hr : (Z.abs r < 2 ^ 53)%Z)
    (Hkr : (Z.abs (k * r) < 2 ^ 53)%Z)
    (Hsign : (k * r <> 0 \/ (0 <= k /\ 0 <= r))%Z) :
  let checkIn := mkDate (Z2number t) in
  let checkOut := mkDate (Z2number (t + k * 86400000)) in
  let hotel := AHotel (Hotel.make name checkIn checkOut (Z2number r)) in
  let car := ACar (Car.make name checkIn checkOut (Z2number r)) in
  TypeSwitch.calculatePrice hotel = Z2number (k * r)
  /\ TypeSwitch.calculatePrice car = Z2number (k * r)
  /\ Visitor.PricingVisitor.price (Visitor.accept hotel Visitor.PricingVisitor.new)
     = Z2number (k * r)
  /\ Visitor.PricingVisitor.price (Visitor.accept car Visitor.PricingVisitor.new)
     = Z2number (k * r).
Proof.
  cbv zeta.
  assert (Hdays : (Z.abs k < 2 ^ 53)%Z) by lia.
  assert (E : (numDays (mkDate (Z2number t)) (mkDate (Z2number (t + k * 86400000)))
               * Z2number r)%float = Z2number (k * r)).
  { rewrite WholeDayFacts.numDays_of_integers by assumption.
    now apply WholeDayFacts.Z2number_mul. }
  assert (E0 : (0 + Z2number (k * r))%float = Z2number (k * r)).
  { rewrite TotalFacts.zero_is_Z2number.
    rewrite IntegerFacts.Z2number_add by (cbn [Z.abs Z.add]; first [assumption | reflexivity]).
    reflexivity. }
  rewrite !DispatchFacts.price_accept.
  cbn [TypeSwitch.calculatePrice Hotel.checkInDate Hotel.checkOutDate Hotel.roomRate
       Car.pickupDate Car.dropOffDate Car.dailyRate
       Visitor.PricingVisitor.price Visitor.PricingVisitor.new].
  rewrite E, E0. repeat split.
Qed.

Lemma whole_day_price_is_exact_witness :
  TypeSwitch.calculatePrice
    (AHotel (Hotel.make "Hilton Times Square"
               (mkDate (Z2number 1577664000000))
               (mkDate (Z2number (1577664000000 + 2 * 86400000)))
               (Z2number 400)))
  = Z2number (2 * 400).
Proof.
  apply (@whole_day_price_is_exact "Hilton Times Square" 1577664000000 2 400);
    first [reflexivity | left; discriminate].
Defined.

(** X6. A Hotel or a Car with an Invalid Date (time value [NaN]) on either
    side has the price [NaN], whatever the other date and the rate are. *)
Theorem invalid_date_gives_NaN_price (name : string) (d : Date) (rate : number) :
  numDays (mkDate nan) d = nan
  /\ numDays d (mkDate nan) = nan
  /\ TypeSwitch.calculatePrice (AHotel (Hotel.make name (mkDate nan) d rate)) = nan
  /\ TypeSwitch.calculatePrice (AHotel (Hotel.make name d (mkDate nan) rate)) = nan
  /\ TypeSwitch.calculatePrice (ACar (Car.make name (mkDate nan) d rate)) = nan
  /\ TypeSwitch.calculatePrice (ACar (Car.make name d (mkDate nan) rate)) = nan.
Proof.
  assert (E1 : numDays (mkDate nan) d = nan).
  { unfold numDays. cbn [getTime].
    now rewrite NaNFacts.sub_nan_r, NaNFacts.div_nan_l. }
  assert (E2 : numDays d (mkDate nan) = nan).
  { unfold numDays. cbn [getTime].
    now rewrite NaNFacts.sub_nan_l, NaNFacts.div_nan_l. }
  cbn [TypeSwitch.calculatePrice Hotel.checkInDate Hotel.checkOutDate Hotel.roomRate
       Car.pickupDate Car.dropOffDate Car.dailyRate].
  rewrite E1, E2, NaNFacts.mul_nan_l. repeat split.
Qed.

(** X7. One product whose price is [NaN] makes the total of the whole
    package [NaN], wherever it was inserted, in both programs. *)
Theorem NaN_price_makes_total_NaN (ps : list Product) (p : Product)
    (Hin : In p ps) (Hnan : TypeSwitch.calculatePrice p = nan) :
  Method.result TypeSwitch.VacationPackage.calculatePrice (TypeSwitch.VacationPackage.make ps)
  = nan
  /\ Method.result Visitor.VacationPackage.calculatePrice (Visitor.VacationPackage.make ps)
     = nan.
Proof.
  rewrite DispatchFacts.typeSwitch_price, DispatchFacts.visitor_price.
  cbn [TypeSwitch.VacationPackage.products Visitor.VacationPackage.products].
  assert (E : sumFromZero (map TypeSwitch.calculatePrice ps) = nan).
  { apply NaNFacts.sumFromZero_nan. rewrite <- Hnan. now apply in_map. }
  now rewrite E.
Qed.

Lemma NaN_price_makes_total_NaN_witness :
  Method.result TypeSwitch.VacationPackage.calculatePrice
    (TypeSwitch.VacationPackage.make
       [ AFlight (Flight.make "TV 312" "BOS" "JFK" startDate 300);
         AHotel (Hotel.make "Hilton Times Square" (mkDate nan) endDate 400);
         ACar (Car.make "SUV" startDate endDate 150) ])
  = nan.
Proof.
  apply (@NaN_price_makes_total_NaN
           [ AFlight (Flight.make "TV 312" "BOS" "JFK" startDate 300);
             AHotel (Hotel.make "Hilton Times Square" (mkDate nan) endDate 400);
             ACar (Car.make "SUV" startDate endDate 150) ]
           (AHotel (Hotel.make "Hilton Times Square" (mkDate nan) endDate 400))).
  - right; left; reflexivity.
  - reflexivity.
Defined.

End WholeDaysAndInvalidDates.

(** X8. Every block of [getItinerary] starts with the title of the
    product's kind on a line of its own, followed by a line of exactly as
    many dashes as the title has characters. *)
Theorem block_starts_with_underlined_title `{Host} (product : Product) :
  exists rest : string,
    TypeSwitch.getItinerary product
    = kindTitle product +s LF
      +s underline (String.length (kindTitle product)) +s LF
      +s rest.
Proof.
  destruct product;
    cbv [TypeSwitch.getItinerary TypeSwitch.getItineraryFlight
         TypeSwitch.getItineraryHotel TypeSwitch.getItineraryCar
         TypeSwitch.getItineraryActivity];
    eexists; right_nested; reflexivity.
Qed.

(** ** Two products, and stays of no night *)

Module SmallFacts.

Local Open Scope float_scope.

Lemma SFadd_comm (u v : spec_float) : SF64add u v = SF64add v u.
Proof.
  destruct u as [[|]|[|]| |su mu eu], v as [[|]|[|]| |sv mv ev]; try reflexivity.
  unfold SF64add, SFadd. rewrite (Z.min_comm ev eu). now rewrite Z.add_comm.
Qed.

(** Starting from [+0], the first two additions can be done in either order. *)
Lemma zero_add_add (a b : number) : (0 + a) + b = (0 + b) + a.
Proof.
  apply Prim2SF_inj. rewrite !add_spec. rewrite NumberFacts.Prim2SF_zero.
  destruct (Prim2SF a) as [[|]|[|]| |sa ma ea], (Prim2SF b) as [[|]|[|]| |sb mb eb];
    try reflexivity.
  change (SF64add (S754_zero false) (S754_finite sa ma ea)) with (S754_finite sa ma ea).
  change (SF64add (S754_zero false) (S754_finite sb mb eb)) with (S754_finite sb mb eb).
  apply SFadd_comm.
Qed.

(** [+0] times a finite number is a zero. *)
Lemma zero_mul_finite (x : number) :
  is_finite x = true -> strictEquals (0 * x) 0 = true.
Proof.
  intros Hx. unfold strictEquals.
  rewrite FloatAxioms.eqb_spec, mul_spec, NumberFacts.Prim2SF_zero.
  destruct (NumberFacts.finite_cases x Hx) as [[s ->]|(s & m & e & ->)];
    destruct s; reflexivity.
Qed.

End SmallFacts.

Section SmallPackages.

Import Visitor.

(** X9. A Hotel whose check-out date is its check-in date, or a Car dropped
    off on its pick-up date, costs zero ([=== 0]) for every finite rate,
    provided the date is valid. *)
Theorem no_night_costs_nothing (name : string) (d : Date) (rate : number)
    (Hd : validDate d = true) (Hrate : is_finite rate = true) :
  strictEquals (TypeSwitch.calculatePrice (AHotel (Hotel.make name d d rate))) 0 = true
  /\ strictEquals (TypeSwitch.calculatePrice (ACar (Car.make name d d rate))) 0 = true.
Proof.
  cbn [TypeSwitch.calculatePrice Hotel.checkInDate Hotel.checkOutDate Hotel.roomRate
       Car.pickupDate Car.dropOffDate Car.dailyRate].
  rewrite (HelperFacts.numDays_same _ Hd).
  split; now apply SmallFacts.zero_mul_finite.
Qed.

Lemma no_night_costs_nothing_witness :
  strictEquals
    (TypeSwitch.calculatePrice (AHotel (Hotel.make "Hilton Times Square" startDate startDate 400)))
    0 = true.
Proof.
  apply (@no_night_costs_nothing "Hilton Times Square" startDate 400); reflexivity.
Defined.

(** X10. Swapping the first two products of a package never changes the
    total, whatever the prices are; in particular the total of a package
    of two products does not depend on the order of insertion.  This holds
    in both programs. *)
Theorem first_two_products_can_be_swapped (p q : Product) (rest : list Product) :
  Method.result TypeSwitch.VacationPackage.calculatePrice
    (TypeSwitch.VacationPackage.make (p :: q :: rest))
  = Method.result TypeSwitch.VacationPackage.calculatePrice
      (TypeSwitch.VacationPackage.make (q :: p :: rest))
  /\ Method.result Visitor.VacationPackage.calculatePrice
       (Visitor.VacationPackage.make (p :: q :: rest))
     = Method.result Visitor.VacationPackage.calculatePrice
         (Visitor.VacationPackage.make (q :: p :: rest)).
Proof.
  rewrite !DispatchFacts.typeSwitch_price, !DispatchFacts.visitor_price.
  cbn [TypeSwitch.VacationPackage.products Visitor.VacationPackage.products map].
  unfold sumFromZero. cbn [fold_left].
  rewrite (SmallFacts.zero_add_add (TypeSwitch.calculatePrice p) (TypeSwitch.calculatePrice q)).
  split; reflexivity.
Qed.

End SmallPackages.
